(** * Sword module to OSIS converter: model and verification

    Shallow embedding of [scripts/convert-sword-to-osis.py]: the index
    reader [read_sword_index], the slot-to-reference arithmetic and the
    OSIS writer of [convert_module_to_osis], and the batch driver [main].

    Python integers are [Z] ([//] and [%] are [Z.div] and [Z.modulo], both
    floored), [bytes] are lists of [byte], [str] values are lists of code
    points, the insertion-ordered [dict] is an association list, printed
    messages are a log of events, and an exception that escapes a block is
    an explicit error result. *)

From Stdlib Require Import Strings.String Strings.Ascii Strings.Byte.
From Stdlib Require Import DecimalString.
From Stdlib Require Import ZArith List Bool Lia Sorted.
Import ListNotations.

Local Open Scope Z_scope.

(* ===================================================================== *)
(** * Python runtime pieces used by the script *)
(* ===================================================================== *)

Module Py.

(** [bytes]: a sequence of octets. *)
Definition bytes := list byte.

(** Value of one octet, [0 .. 255]. *)
Definition byte_val (b : byte) : Z := Z.of_N (Byte.to_N b).

(** The octet of value [z], for writing buffers down ([z] in
    [0 .. 255]). *)
Definition byte_of (z : Z) : byte :=
  match Byte.of_N (Z.to_N z) with
  | Some b => b
  | None => x00
  end.

Definition bytes_of (l : list Z) : bytes := map byte_of l.

(** [str]: a sequence of Unicode code points. *)
Definition str := list Z.

(** A source literal made of ASCII characters. *)
Definition lit (s : string) : str :=
  map (fun a => Z.of_N (N_of_ascii a)) (list_ascii_of_string s).

(** The double quote and the newline, which the literals of the writer
    contain. *)
Definition dquote : str := [34].
Definition newline : str := [10].

(** [len(x)] as a Python integer. *)
Definition len {A : Type} (l : list A) : Z := Z.of_nat (length l).

(** Normalisation of one slice bound: a negative bound counts from the
    end, and the result is clamped to [0 .. len]. *)
Definition slice_bound (n i : Z) : Z :=
  let j := if i <? 0 then i + n else i in
  Z.max 0 (Z.min n j).

(** [l[lo:hi]]. *)
Definition slice {A : Type} (l : list A) (lo hi : Z) : list A :=
  let n := len l in
  let a := slice_bound n lo in
  let b := slice_bound n hi in
  firstn (Z.to_nat (b - a)) (skipn (Z.to_nat a) l).

(** [l[:hi]]. *)
Definition slice_to {A : Type} (l : list A) (hi : Z) : list A :=
  slice l 0 hi.

(** [l[i]]: a negative index counts from the end; outside
    [-len .. len-1] the access raises [IndexError] ([None]). *)
Definition getitem {A : Type} (l : list A) (i : Z) : option A :=
  let n := len l in
  if (0 <=? i) && (i <? n) then nth_error l (Z.to_nat i)
  else if (- n <=? i) && (i <? 0) then nth_error l (Z.to_nat (i + n))
  else None.

(** [range(n)]. *)
Definition range (n : Z) : list Z :=
  map Z.of_nat (seq 0 (Z.to_nat n)).

(** [str(n)] for an integer: decimal digits, with a minus sign when
    negative. *)
Definition str_of_int (n : Z) : str :=
  lit (NilZero.string_of_int (Z.to_int n)).

(** ** Insertion-ordered dictionaries *)

Definition dict (V : Type) := list (Z * V).

(** [d[k] = v]: an existing key keeps its position and takes the new
    value, a new key goes to the end. *)
Fixpoint dict_set {V : Type} (d : dict V) (k : Z) (v : V) : dict V :=
  match d with
  | [] => [(k, v)]
  | (k', v') :: d' =>
      if k' =? k then (k, v) :: d' else (k', v') :: dict_set d' k v
  end.

Definition dict_keys {V : Type} (d : dict V) : list Z := map fst d.

(** ** [str.replace] *)

(** Whether [s] starts with [p]. *)
Fixpoint starts_with (p s : str) : bool :=
  match p, s with
  | [], _ => true
  | _ :: _, [] => false
  | a :: p', b :: s' => (a =? b) && starts_with p' s'
  end.

(** The scan of [s.replace(old, new)] for a non-empty [old]: occurrences
    are found left to right and do not overlap; [skip] counts the
    characters of the occurrence just replaced that are still to be
    passed over. *)
Fixpoint replace_from (skip : nat) (old new s : str) : str :=
  match s with
  | [] => []
  | c :: s' =>
      match skip with
      | S k => replace_from k old new s'
      | O =>
          if starts_with old s
          then new ++ replace_from (pred (length old)) old new s'
          else c :: replace_from O old new s'
      end
  end.

(** [s.replace(old, new)], [old] not empty. *)
Definition replace (s old new : str) : str := replace_from O old new s.

(** ** [struct.unpack] *)

(** An unsigned little-endian integer. *)
Fixpoint le_uint (bs : bytes) : Z :=
  match bs with
  | [] => 0
  | b :: bs' => byte_val b + 256 * le_uint bs'
  end.

(** [struct.unpack('<III', buf)]: three unsigned 32-bit little-endian
    fields; a buffer that is not 12 bytes long raises [struct.error]. *)
Definition unpack_III (buf : bytes) : option (Z * Z * Z) :=
  if len buf =? 12 then
    Some (le_uint (slice buf 0 4), le_uint (slice buf 4 8),
          le_uint (slice buf 8 12))
  else None.

(** ** Binary files *)

(** [f.seek(pos); f.read(n)] on a file opened for reading whose content
    is [data]: at most [n] bytes from [pos] on, fewer at the end of the
    file, none beyond it; a negative [n] reads to the end. *)
Definition seek_read (data : bytes) (pos n : Z) : bytes :=
  let tail := skipn (Z.to_nat pos) data in
  if n <? 0 then tail else firstn (Z.to_nat n) tail.

(** ** [bytes.decode('utf-8', errors=...)] *)

(** The error handlers of the codec. *)
Inductive errors := Strict | Ignore | Replace.

(** What the decoder finds at the head of its input: a well-formed
    sequence of [n] bytes encoding [cp]; a malformed sequence whose error
    range is the first [n] bytes (an invalid start byte, or a start byte
    and the continuation bytes before an invalid one); or a sequence cut
    by the end of the data, whose error range is the rest of the input. *)
Inductive utf8_head :=
  | Decoded (cp : Z) (n : nat)
  | Malformed (n : nat)
  | Truncated.

Definition is_continuation (b : Z) : bool := (128 <=? b) && (b <? 192).

(** One step of the decoder on the byte values [bs] (not empty).  Overlong
    forms, surrogates and code points above U+10FFFF are rejected at the
    second byte. *)
Definition utf8_step (bs : list Z) : utf8_head :=
  match bs with
  | [] => Truncated
  | ch :: r =>
      if ch <? 128 then Decoded ch 1
      else if ch <? 194 then Malformed 1
      else if ch <? 224 then
        match r with
        | [] => Truncated
        | c2 :: _ =>
            if is_continuation c2
            then Decoded (Z.lor (Z.shiftl (Z.land ch 31) 6) (Z.land c2 63)) 2
            else Malformed 1
        end
      else if ch <? 240 then
        match r with
        | [] => Truncated
        | c2 :: r2 =>
            if negb (is_continuation c2)
               || (if c2 <? 160 then ch =? 224 else ch =? 237)
            then Malformed 1
            else
              match r2 with
              | [] => Truncated
              | c3 :: _ =>
                  if is_continuation c3
                  then Decoded (Z.lor (Z.shiftl (Z.land ch 15) 12)
                                  (Z.lor (Z.shiftl (Z.land c2 63) 6)
                                     (Z.land c3 63))) 3
                  else Malformed 2
              end
        end
      else if ch <? 245 then
        match r with
        | [] => Truncated
        | c2 :: r2 =>
            if negb (is_continuation c2)
               || (if c2 <? 144 then ch =? 240 else ch =? 244)
            then Malformed 1
            else
              match r2 with
              | [] => Truncated
              | c3 :: r3 =>
                  if negb (is_continuation c3) then Malformed 2
                  else
                    match r3 with
                    | [] => Truncated
                    | c4 :: _ =>
                        if is_continuation c4
                        then Decoded
                               (Z.lor (Z.shiftl (Z.land ch 7) 18)
                                  (Z.lor (Z.shiftl (Z.land c2 63) 12)
                                     (Z.lor (Z.shiftl (Z.land c3 63) 6)
                                        (Z.land c4 63)))) 4
                        else Malformed 3
                    end
              end
        end
      else Malformed 1
  end.

(** U+FFFD, what the [Replace] handler puts in place of an error range. *)
Definition REPLACEMENT_CHARACTER : Z := 65533.

(** The decoding loop.  [skip] counts the bytes of the sequence or error
    range just handled that are still to be passed over.  [Strict] raises
    [UnicodeDecodeError] ([None]) at the first error, [Ignore] drops the
    error range and goes on, [Replace] puts U+FFFD in its place. *)
Fixpoint decode_from (e : errors) (skip : nat) (bs : list Z) : option str :=
  match bs with
  | [] => Some []
  | _ :: rest =>
      match skip with
      | S k => decode_from e k rest
      | O =>
          match utf8_step bs with
          | Decoded cp n => option_map (cons cp) (decode_from e (pred n) rest)
          | Malformed n =>
              match e with
              | Strict => None
              | Ignore => decode_from e (pred n) rest
              | Replace =>
                  option_map (cons REPLACEMENT_CHARACTER)
                    (decode_from e (pred n) rest)
              end
          | Truncated =>
              match e with
              | Strict => None
              | Ignore => Some []
              | Replace => Some [REPLACEMENT_CHARACTER]
              end
          end
      end
  end.

(** [data.decode('utf-8', errors=e)]. *)
Definition decode_utf8 (e : errors) (data : bytes) : option str :=
  decode_from e O (map byte_val data).

(** ** Text files *)

(** The code points UTF-8 can encode: all but the surrogates. *)
Definition scalar_value (c : Z) : bool :=
  ((0 <=? c) && (c <? 55296)) || ((57344 <=? c) && (c <=? 1114111)).

Definition encodable (s : str) : bool := forallb scalar_value s.

(** [f.write(s)] on a file opened with [encoding='utf-8'], after the
    chunks [written]: a string with a surrogate raises
    [UnicodeEncodeError] ([None]). *)
Definition file_write (written : list str) (s : str) : option (list str) :=
  if encodable s then Some (written ++ [s]) else None.

(** ** [str.strip(chars)] *)

Definition char_in (chars : str) (c : Z) : bool := existsb (Z.eqb c) chars.

Fixpoint lstrip (chars s : str) : str :=
  match s with
  | [] => []
  | c :: s' => if char_in chars c then lstrip chars s' else s
  end.

Definition strip (s chars : str) : str :=
  rev (lstrip chars (rev (lstrip chars s))).

End Py.

(* ===================================================================== *)
(** * [zlib.decompress]

    The decompressor the script calls on every payload: a zlib container
    (RFC 1950: two header bytes, a DEFLATE stream, an Adler-32 trailer)
    around DEFLATE blocks (RFC 1951: stored, fixed Huffman and dynamic
    Huffman).  [None] stands for [zlib.error].  The reader of the script is
    parametric in its decompressor; this one is the instance the script
    runs with. *)
(* ===================================================================== *)

Module Zlib.
Import Py.

(** The input as a stream of bits, least significant bit of each byte
    first. *)
Definition bits := list bool.

Fixpoint byte_bits (n : nat) (v : Z) : bits :=
  match n with
  | O => []
  | S n' => Z.odd v :: byte_bits n' (v / 2)
  end.

Definition bits_of_bytes (bs : list Z) : bits := flat_map (byte_bits 8) bs.

(** The next [n] bits as an integer, first bit least significant; [None]
    when the input ends before. *)
Fixpoint take_bits (n : nat) (s : bits) : option (Z * bits) :=
  match n with
  | O => Some (0, s)
  | S n' =>
      match s with
      | [] => None
      | b :: s' =>
          match take_bits n' s' with
          | None => None
          | Some (v, r) => Some (Z.b2z b + 2 * v, r)
          end
      end
  end.

(** Drop the bits left in the current byte.  The stream holds whole bytes,
    so these are as many as the remaining length exceeds a multiple
    of 8. *)
Definition align (s : bits) : bits := skipn (Nat.modulo (length s) 8) s.

(** The next [n] whole bytes are appended to the output, which is kept
    most recent byte first. *)
Fixpoint take_bytes (n : nat) (s : bits) (out : list Z)
  : option (bits * list Z) :=
  match n with
  | O => Some (s, out)
  | S n' =>
      match take_bits 8 s with
      | None => None
      | Some (b, s') => take_bytes n' s' (b :: out)
      end
  end.

(** A stored block: the length, its one's complement, and the bytes. *)
Definition stored (s : bits) (out : list Z) : option (bits * list Z) :=
  match take_bits 16 (align s) with
  | None => None
  | Some (n, s1) =>
      match take_bits 16 s1 with
      | None => None
      | Some (nn, s2) =>
          if nn =? 65535 - n then take_bytes (Z.to_nat n) s2 out else None
      end
  end.

(** A canonical Huffman code: how many symbols have each code length
    [1 .. 15], and the symbols ordered by code length, then by value. *)
Record huffman := { h_count : list Z; h_symbol : list Z }.

Definition code_lengths : list Z := map Z.of_nat (seq 1 15).

Definition count_of (lengths : list Z) (l : Z) : Z :=
  len (filter (Z.eqb l) lengths).

Definition symbols_of (lengths : list Z) (l : Z) : list Z :=
  map fst (filter (fun p => snd p =? l)
             (combine (range (len lengths)) lengths)).

(** Codes still unassigned after each length; negative as soon as the
    lengths over-subscribe the code space. *)
Fixpoint left_over (counts : list Z) (free : Z) : Z :=
  match counts with
  | [] => free
  | c :: cs =>
      let free' := 2 * free - c in
      if free' <? 0 then free' else left_over cs free'
  end.

(** The code for a list of code lengths, and what is left of the code
    space: [0] for a complete code (or one with no symbol at all),
    positive for an incomplete one, negative for an over-subscribed one. *)
Definition construct (lengths : list Z) : huffman * Z :=
  let h := {| h_count := map (count_of lengths) code_lengths;
              h_symbol := flat_map (symbols_of lengths) code_lengths |} in
  (h, if count_of lengths 0 =? len lengths then 0
      else left_over (h_count h) 1).

(** Decode one symbol, a bit at a time: [code] is the code read so far,
    [first] the first code of the current length and [index] the position
    of its symbol. *)
Fixpoint decode_from_counts (counts symbols : list Z) (code first index : Z)
    (s : bits) : option (Z * bits) :=
  match counts with
  | [] => None
  | count :: counts' =>
      match s with
      | [] => None
      | b :: s' =>
          let code := code + Z.b2z b in
          if code - count <? first then
            match nth_error symbols (Z.to_nat (index + (code - first))) with
            | Some sym => Some (sym, s')
            | None => None
            end
          else
            decode_from_counts counts' symbols (2 * code)
              (2 * (first + count)) (index + count) s'
      end
  end.

Definition decode (h : huffman) (s : bits) : option (Z * bits) :=
  decode_from_counts (h_count h) (h_symbol h) 0 0 0 s.

(** Base values and extra bits of the length and distance symbols. *)
Definition lens : list Z :=
  [3; 4; 5; 6; 7; 8; 9; 10; 11; 13; 15; 17; 19; 23; 27; 31; 35; 43; 51; 59;
   67; 83; 99; 115; 131; 163; 195; 227; 258].
Definition lext : list Z :=
  [0; 0; 0; 0; 0; 0; 0; 0; 1; 1; 1; 1; 2; 2; 2; 2; 3; 3; 3; 3; 4; 4; 4; 4;
   5; 5; 5; 5; 0].
Definition dists : list Z :=
  [1; 2; 3; 4; 5; 7; 9; 13; 17; 25; 33; 49; 65; 97; 129; 193; 257; 385; 513;
   769; 1025; 1537; 2049; 3073; 4097; 6145; 8193; 12289; 16385; 24577].
Definition dext : list Z :=
  [0; 0; 0; 0; 1; 1; 2; 2; 3; 3; 4; 4; 5; 5; 6; 6; 7; 7; 8; 8; 9; 9; 10; 10;
   11; 11; 12; 12; 13; 13].

(** A base value plus its extra bits. *)
Definition base_extra (bases extras : list Z) (k : Z) (s : bits)
  : option (Z * bits) :=
  match nth_error bases (Z.to_nat k), nth_error extras (Z.to_nat k) with
  | Some base, Some e =>
      match take_bits (Z.to_nat e) s with
      | Some (x, s') => Some (base + x, s')
      | None => None
      end
  | _, _ => None
  end.

(** Copy [n] bytes from [dist] bytes back in the output (most recent
    first); the source may overlap what is being written. *)
Fixpoint copy_back (n dist : nat) (out : list Z) : option (list Z) :=
  match n with
  | O => Some out
  | S n' =>
      match nth_error out (pred dist) with
      | Some b => copy_back n' dist (b :: out)
      | None => None
      end
  end.

(** The symbols of a compressed block, up to the end-of-block symbol 256.
    Every symbol takes at least one bit, so [fuel] above the number of
    bits left is never used up. *)
Fixpoint codes (fuel : nat) (lencode distcode : huffman) (s : bits)
    (out : list Z) : option (bits * list Z) :=
  match fuel with
  | O => None
  | S fuel' =>
      match decode lencode s with
      | None => None
      | Some (sym, s1) =>
          if sym <? 256 then codes fuel' lencode distcode s1 (sym :: out)
          else if sym =? 256 then Some (s1, out)
          else
            match base_extra lens lext (sym - 257) s1 with
            | None => None
            | Some (n, s2) =>
                match decode distcode s2 with
                | None => None
                | Some (dsym, s3) =>
                    match base_extra dists dext dsym s3 with
                    | None => None
                    | Some (dist, s4) =>
                        if (0 <? dist) && (dist <=? len out) then
                          match copy_back (Z.to_nat n) (Z.to_nat dist) out with
                          | Some out' => codes fuel' lencode distcode s4 out'
                          | None => None
                          end
                        else None
                    end
                end
            end
      end
  end.

Definition fixed_lengths : list Z :=
  repeat 8 144 ++ repeat 9 112 ++ repeat 7 24 ++ repeat 8 8.
Definition fixed_dist_lengths : list Z := repeat 5 30%nat.

(** The order in which the lengths of the code length code are sent. *)
Definition order : list Z :=
  [16; 17; 18; 0; 8; 7; 9; 6; 10; 5; 11; 4; 12; 3; 13; 2; 14; 1; 15].

Fixpoint take_fields (n width : nat) (s : bits) : option (list Z * bits) :=
  match n with
  | O => Some ([], s)
  | S n' =>
      match take_bits width s with
      | None => None
      | Some (v, s1) =>
          match take_fields n' width s1 with
          | None => None
          | Some (vs, s2) => Some (v :: vs, s2)
          end
      end
  end.

Fixpoint position (x : Z) (l : list Z) : nat :=
  match l with
  | [] => O
  | y :: l' => if y =? x then O else S (position x l')
  end.

(** The length of code length symbol [sym], given the lengths sent in
    [order]; symbols not sent have length 0. *)
Definition code_length_of (sent : list Z) (sym : Z) : Z :=
  nth (position sym order) sent 0.

(** The literal/length and distance code lengths of a dynamic block, most
    recent first in [acc], until [total] of them are read. *)
Fixpoint read_lengths (fuel : nat) (lencode : huffman) (total : nat)
    (acc : list Z) (s : bits) : option (list Z * bits) :=
  if (total <=? length acc)%nat then Some (rev acc, s) else
  match fuel with
  | O => None
  | S fuel' =>
      match decode lencode s with
      | None => None
      | Some (sym, s1) =>
          if sym <? 16 then read_lengths fuel' lencode total (sym :: acc) s1
          else
            let '(prev_needed, base, width) :=
              if sym =? 16 then (true, 3, 2%nat)
              else if sym =? 17 then (false, 3, 3%nat)
              else (false, 11, 7%nat) in
            match take_bits width s1 with
            | None => None
            | Some (x, s2) =>
                let n := Z.to_nat (base + x) in
                if (total <? length acc + n)%nat then None
                else if prev_needed then
                  match acc with
                  | [] => None
                  | l :: _ =>
                      read_lengths fuel' lencode total (repeat l n ++ acc) s2
                  end
                else read_lengths fuel' lencode total (repeat 0 n ++ acc) s2
            end
      end
  end.

(** An incomplete code is accepted only when it is a single code of
    length one. *)
Definition usable (lengths : list Z) (free : Z) : bool :=
  (free =? 0)
  || ((0 <? free) && (len lengths =? count_of lengths 0 + count_of lengths 1)).

Definition dynamic (fuel : nat) (s : bits) (out : list Z)
  : option (bits * list Z) :=
  match take_bits 5 s with
  | None => None
  | Some (a, s1) =>
  match take_bits 5 s1 with
  | None => None
  | Some (b, s2) =>
  match take_bits 4 s2 with
  | None => None
  | Some (c, s3) =>
      let nlen := a + 257 in
      let ndist := b + 1 in
      let ncode := c + 4 in
      if (286 <? nlen) || (30 <? ndist) then None else
      match take_fields (Z.to_nat ncode) 3 s3 with
      | None => None
      | Some (sent, s4) =>
          let '(clcode, free) :=
            construct (map (code_length_of sent) (range 19)) in
          if negb (free =? 0) then None else
          match read_lengths (Z.to_nat (nlen + ndist)) clcode
                  (Z.to_nat (nlen + ndist)) [] s4 with
          | None => None
          | Some (lengths, s5) =>
              let ll := firstn (Z.to_nat nlen) lengths in
              let dl := skipn (Z.to_nat nlen) lengths in
              if nth 256 ll 0 =? 0 then None else
              let '(lencode, lfree) := construct ll in
              let '(distcode, dfree) := construct dl in
              if usable ll lfree && usable dl dfree
              then codes fuel lencode distcode s5 out
              else None
          end
      end
  end end end.

Definition fixed (fuel : nat) (s : bits) (out : list Z)
  : option (bits * list Z) :=
  codes fuel (fst (construct fixed_lengths))
    (fst (construct fixed_dist_lengths)) s out.

(** The blocks of a DEFLATE stream, up to the one marked last.  Every
    block takes at least three bits. *)
Fixpoint blocks (fuel : nat) (s : bits) (out : list Z)
  : option (bits * list Z) :=
  match fuel with
  | O => None
  | S fuel' =>
      match take_bits 1 s with
      | None => None
      | Some (last, s1) =>
          match take_bits 2 s1 with
          | None => None
          | Some (type, s2) =>
              let r :=
                if type =? 0 then stored s2 out
                else if type =? 1 then fixed (S (length s2)) s2 out
                else if type =? 2 then dynamic (S (length s2)) s2 out
                else None in
              match r with
              | None => None
              | Some (s3, out') =>
                  if last =? 1 then Some (s3, out') else blocks fuel' s3 out'
              end
          end
      end
  end.

(** The Adler-32 checksum of the output. *)
Definition adler32 (data : list Z) : Z :=
  let '(a, b) :=
    fold_left (fun '(a, b) x =>
                 let a' := (a + x) mod 65521 in (a', (b + a') mod 65521))
      data (1, 0) in
  b * 65536 + a.

(** A big-endian unsigned integer. *)
Definition be_uint (bs : list Z) : Z :=
  fold_left (fun acc b => 256 * acc + b) bs 0.

(** [zlib.decompress(data)]: the header must name DEFLATE with a window of
    at most 32K, pass its check and ask for no preset dictionary; the
    stream must be complete and the trailer must match.  What follows the
    trailer is not looked at. *)
Definition decompress (data : bytes) : option bytes :=
  match map byte_val data with
  | cmf :: flg :: body =>
      if ((256 * cmf + flg) mod 31 =? 0) && (Z.land cmf 15 =? 8)
         && (cmf / 16 <=? 7) && (Z.land flg 32 =? 0)
      then
        let s := bits_of_bytes body in
        match blocks (S (length s)) s [] with
        | None => None
        | Some (s1, out) =>
            match take_fields 4 8 (align s1) with
            | None => None
            | Some (trailer, _) =>
                if be_uint trailer =? adler32 (rev out)
                then Some (bytes_of (rev out))
                else None
            end
        end
      else None
  | _ => None
  end.

End Zlib.

(* ===================================================================== *)
(** * The script [convert-sword-to-osis.py] *)
(* ===================================================================== *)

Module Sword.
Import Py.

(** KJV book order (Sword versification). *)
Definition KJV_BOOKS : list str :=
  map lit
    ["Gen"; "Exod"; "Lev"; "Num"; "Deut"; "Josh"; "Judg"; "Ruth"; "1Sam";
     "2Sam"; "1Kgs"; "2Kgs"; "1Chr"; "2Chr"; "Ezra"; "Neh"; "Esth"; "Job";
     "Ps"; "Prov"; "Eccl"; "Song"; "Isa"; "Jer"; "Lam"; "Ezek"; "Dan"; "Hos";
     "Joel"; "Amos"; "Obad"; "Jonah"; "Mic"; "Nah"; "Hab"; "Zeph"; "Hag";
     "Zech"; "Mal"; "Matt"; "Mark"; "Luke"; "John"; "Acts"; "Rom"; "1Cor";
     "2Cor"; "Gal"; "Eph"; "Phil"; "Col"; "1Thess"; "2Thess"; "1Tim"; "2Tim";
     "Titus"; "Phlm"; "Heb"; "Jas"; "1Pet"; "2Pet"; "1John"; "2John";
     "3John"; "Jude"; "Rev"]%string.

(** Chapters per book (KJV versification).  The script declares the table
    and never reads it. *)
Definition KJV_CHAPTERS : list (str * Z) :=
  map (fun p => (lit (fst p), snd p))
    [("Gen", 50); ("Exod", 40); ("Lev", 27); ("Num", 36); ("Deut", 34);
     ("Josh", 24); ("Judg", 21); ("Ruth", 4); ("1Sam", 31); ("2Sam", 24);
     ("1Kgs", 22); ("2Kgs", 25); ("1Chr", 29); ("2Chr", 36); ("Ezra", 10);
     ("Neh", 13); ("Esth", 10); ("Job", 42); ("Ps", 150); ("Prov", 31);
     ("Eccl", 12); ("Song", 8); ("Isa", 66); ("Jer", 52); ("Lam", 5);
     ("Ezek", 48); ("Dan", 12); ("Hos", 14); ("Joel", 3); ("Amos", 9);
     ("Obad", 1); ("Jonah", 4); ("Mic", 7); ("Nah", 3); ("Hab", 3);
     ("Zeph", 3); ("Hag", 2); ("Zech", 14); ("Mal", 4); ("Matt", 28);
     ("Mark", 16); ("Luke", 24); ("John", 21); ("Acts", 28); ("Rom", 16);
     ("1Cor", 16); ("2Cor", 13); ("Gal", 6); ("Eph", 6); ("Phil", 4);
     ("Col", 4); ("1Thess", 5); ("2Thess", 3); ("1Tim", 6); ("2Tim", 4);
     ("Titus", 3); ("Phlm", 1); ("Heb", 13); ("Jas", 5); ("1Pet", 5);
     ("2Pet", 3); ("1John", 5); ("2John", 1); ("3John", 1); ("Jude", 1);
     ("Rev", 22)]%string.

(** Verses per chapter (simplified - 200 as max for indexing). *)
Definition MAX_VERSES_PER_CHAPTER : Z := 200.

(** ** What the script prints *)

Inductive index_kind := Compressed | Uncompressed.

Inductive message :=
  | IndexFileNotFound                 (* Index file not found in ... *)
  | ReadingIndex (k : index_kind)     (* Reading index: ... *)
  | ReadingData (k : index_kind)      (* Reading data: ... *)
  | FoundIndexEntries (n : Z)         (* Found n index entries *)
  | SuccessfullyRead (n : Z)          (* Successfully read n entries *)
  | ErrorReadingModule                (* Error reading Sword module: ... *)
  | Converting                        (* Converting: ... *)
  | NoConfFile                        (* No .conf file found *)
  | ModuleAndDataPath (name path : str)
  | DataDirectoryNotFound             (* Data directory not found: ... *)
  | NoEntriesPlaceholder              (* No entries found, generating placeholder OSIS *)
  | Created                           (* Created ... *)
  | BasicExportNote                   (* Note: This is a basic export ... *)
  | ErrorTraceback.                   (* Error: ... and the traceback *)

(** ** The files of a module *)

(** The data directory of a module: the content of each of the four files
    the reader looks for, when the file exists. *)
Record data_dir := {
  mhc_zdx : option bytes;
  mhc_zdt : option bytes;
  mhc_idx : option bytes;
  mhc_dat : option bytes
}.

(** A [.conf] file as [configparser] reads it: its sections in order, each
    with the value of its [DataPath] option when it has one. *)
Definition conf_file := list (str * option str).

(** A module directory: the [mods.d/*.conf] files ([None] for one the
    parser raises on), and the directory each relative path leads to,
    when it exists. *)
Record module_dir := {
  conf_files : list (option conf_file);
  subdir : str -> option data_dir
}.

(** ** [read_sword_index] *)

(** The index and data files the reader settles on: the compressed pair
    when [mhc.zdx] exists, the uncompressed pair otherwise. *)
Definition index_files (d : data_dir)
  : index_kind * option bytes * option bytes :=
  match mhc_zdx d with
  | Some _ => (Compressed, mhc_zdx d, mhc_zdt d)
  | None => (Uncompressed, mhc_idx d, mhc_dat d)
  end.

Section Reader.

(** [zlib.decompress]; [None] when it raises. *)
Variable decompress : bytes -> option bytes.

(** The body of the [try]:
    [zlib.decompress(compressed).decode('utf-8', errors='ignore')];
    [None] when an exception is raised. *)
Definition decompress_text (compressed : bytes) : option str :=
  match decompress compressed with
  | None => None
  | Some raw => decode_utf8 Ignore raw
  end.

(** [idx_data[i*entry_size:(i+1)*entry_size]] *)
Definition idx_entry (idx_data : bytes) (i : Z) : bytes :=
  let entry_size := 12 in
  slice idx_data (i * entry_size) ((i + 1) * entry_size).

(** The slot numbers the loop goes through:
    [range(min(num_entries, 100))]. *)
Definition sampled_slots (idx_data : bytes) : list Z :=
  let entry_size := 12 in
  let num_entries := len idx_data / entry_size in
  range (Z.min num_entries 100).

(** One turn of the [for i in range(...)] loop on the entries collected so
    far.  [None] is an exception outside the inner [try] (a short index
    block makes [struct.unpack] raise), which ends the loop in the outer
    handler. *)
Definition read_slot (idx_data dat_data : bytes) (i : Z)
    (entries : dict str) : option (dict str) :=
  match unpack_III (idx_entry idx_data i) with
  | None => None
  | Some (offset, size, comp_size) =>
      if (offset >? 0) && (size >? 0) then
        let compressed := seek_read dat_data offset comp_size in
        match decompress_text compressed with
        | Some text => Some (dict_set entries i (slice_to text 200))
        | None => Some entries
        end
      else Some entries
  end.

(** The loop over the slot numbers [slots]; the flag tells whether it ran
    to its end.  The dictionary is updated in place, so the entries stored
    before an exception stay. *)
Fixpoint read_slots (idx_data dat_data : bytes) (slots : list Z)
    (entries : dict str) : dict str * bool :=
  match slots with
  | [] => (entries, true)
  | i :: slots' =>
      match read_slot idx_data dat_data i entries with
      | None => (entries, false)
      | Some entries' => read_slots idx_data dat_data slots' entries'
      end
  end.

(** [read_sword_index(module_path)]: the entries and what was printed. *)
Definition read_sword_index (d : data_dir) : dict str * list message :=
  let '(kind, idx_file, dat_file) := index_files d in
  match idx_file with
  | None => ([], [IndexFileNotFound])
  | Some idx_data =>
      let log := [ReadingIndex kind; ReadingData kind] in
      match dat_file with
      | None => ([], log ++ [ErrorReadingModule])
      | Some dat_data =>
          let entry_size := 12 in
          let num_entries := len idx_data / entry_size in
          let '(entries, finished) :=
            read_slots idx_data dat_data (sampled_slots idx_data) [] in
          if finished then
            (entries,
             log ++ [FoundIndexEntries num_entries;
                     SuccessfullyRead (len entries)])
          else
            (entries, log ++ [FoundIndexEntries num_entries;
                              ErrorReadingModule])
      end
  end.

End Reader.

(** ** [convert_module_to_osis] *)

(** The three lines written before the entries and the two after. *)
Definition osis_header : list str :=
  [lit "<?xml version=" ++ dquote ++ lit "1.0" ++ dquote ++ lit " encoding="
     ++ dquote ++ lit "UTF-8" ++ dquote ++ lit "?>" ++ newline;
   lit "<osis xmlns=" ++ dquote
     ++ lit "http://www.bibletechnologies.net/2003/OSIS/namespace" ++ dquote
     ++ lit ">" ++ newline;
   lit "  <osisText osisIDWork=" ++ dquote ++ lit "Bible" ++ dquote
     ++ lit ">" ++ newline].

Definition osis_footer : list str :=
  [lit "  </osisText>" ++ newline; lit "</osis>" ++ newline].

(** [text.replace('&', '&amp;').replace('<', '&lt;').replace('>', '&gt;')] *)
Definition escape_text (text : str) : str :=
  replace (replace (replace text (lit "&") (lit "&amp;"))
             (lit "<") (lit "&lt;"))
    (lit ">") (lit "&gt;").

(** The guess of book, chapter and verse from a slot number. *)
Inductive guess :=
  | Verse (book : str) (chapter verse : Z)
  | NoBook          (* [book_idx < len(KJV_BOOKS)] is false *)
  | BookIndexError. (* [KJV_BOOKS[book_idx]] raises *)

Definition guess_verse (idx : Z) : guess :=
  let book_idx := idx / (50 * MAX_VERSES_PER_CHAPTER) in
  if book_idx <? len KJV_BOOKS then
    match getitem KJV_BOOKS book_idx with
    | None => BookIndexError
    | Some book =>
        let chapter :=
          (idx mod (50 * MAX_VERSES_PER_CHAPTER)) / MAX_VERSES_PER_CHAPTER
          + 1 in
        let verse := idx mod MAX_VERSES_PER_CHAPTER + 1 in
        Verse book chapter verse
    end
  else NoBook.

(** The line written for one entry. *)
Definition verse_line (book : str) (chapter verse : Z) (text : str) : str :=
  let osisID :=
    book ++ lit "." ++ str_of_int chapter ++ lit "." ++ str_of_int verse in
  let escaped_text := escape_text text in
  lit "    <verse osisID=" ++ dquote ++ osisID ++ dquote ++ lit ">"
    ++ escaped_text ++ lit "</verse>" ++ newline.

(** The loop over the entries to write: the chunks written so far (most
    recent last), and whether the loop ran to its end; it does not when
    the book lookup or the write raises. *)
Fixpoint write_entries (items : list (Z * str)) (written : list str)
  : list str * bool :=
  match items with
  | [] => (written, true)
  | (idx, text) :: items' =>
      match guess_verse idx with
      | Verse book chapter verse =>
          match file_write written (verse_line book chapter verse text) with
          | Some written' => write_entries items' written'
          | None => (written, false)
          end
      | NoBook => write_entries items' written
      | BookIndexError => (written, false)
      end
  end.

(** What the [with open(output_file, 'w', encoding='utf-8')] block leaves
    in the file, one chunk per [f.write], and whether it finished.  The
    header and the footer are ASCII literals, whose writes cannot raise. *)
Definition write_osis (entries : dict str) : list str * bool :=
  let '(written, finished) :=
    write_entries (slice_to entries 50) osis_header in
  if finished then (written ++ osis_footer, true) else (written, false).

(** The result of converting one module: the returned flag, the content of
    the output file when it was opened, and what was printed. *)
Record conversion := {
  returned : bool;
  output : option (list str);
  printed : list message
}.

Section Converter.

Variable decompress : bytes -> option bytes.

Definition convert_module_to_osis (m : module_dir) : conversion :=
  match conf_files m with
  | [] => {| returned := false; output := None;
             printed := [Converting; NoConfFile] |}
  | None :: _ => {| returned := false; output := None;
                    printed := [Converting; ErrorTraceback] |}
  | Some [] :: _ => {| returned := false; output := None;
                       printed := [Converting; ErrorTraceback] |}
  | Some ((module_name, option_value) :: _) :: _ =>
      let data_path :=
        strip (match option_value with Some v => v | None => [] end)
          (lit "./") in
      let log := [Converting; ModuleAndDataPath module_name data_path] in
      match subdir m data_path with
      | None => {| returned := false; output := None;
                   printed := log ++ [DataDirectoryNotFound] |}
      | Some data =>
          let '(entries, read_log) := read_sword_index decompress data in
          let log := log ++ read_log in
          let log :=
            match entries with
            | [] => log ++ [NoEntriesPlaceholder]
            | _ :: _ => log
            end in
          let '(written, finished) := write_osis entries in
          if finished then
            {| returned := true; output := Some written;
               printed := log ++ [Created; BasicExportNote] |}
          else
            {| returned := false; output := Some written;
               printed := log ++ [ErrorTraceback] |}
      end
  end.

(** [main]: every module directory is converted in turn; the number of
    successes and the result of each. *)
Definition main (module_dirs : list module_dir) : Z * list conversion :=
  let results := map convert_module_to_osis module_dirs in
  (len (filter returned results), results).

End Converter.

End Sword.

(* ===================================================================== *)
(** * Notions the properties are stated with *)
(* ===================================================================== *)

Module Notions.
Import Py Sword.

(** ** Index records *)

(** The little-endian encoding of an unsigned 32-bit value, and of one
    index record [(offset, size, comp_size)]. *)
Definition u32_le (v : Z) : list Z :=
  [v mod 256; (v / 256) mod 256; (v / 65536) mod 256; (v / 16777216) mod 256].

Definition index_record (offset size comp_size : Z) : bytes :=
  bytes_of (u32_le offset ++ u32_le size ++ u32_le comp_size).

(** The record the loop unpacks at slot [i]. *)
Definition unpacked (idx_data : bytes) (i : Z) : option (Z * Z * Z) :=
  unpack_III (idx_entry idx_data i).

(** All the records the loop unpacks, in slot order. *)
Definition unpacked_records (idx_data : bytes) : list (option (Z * Z * Z)) :=
  map (unpacked idx_data) (sampled_slots idx_data).

(** The three fields of the 12-byte block number [i], read directly. *)
Definition block_fields (idx_data : bytes) (i : Z) : Z * Z * Z :=
  (le_uint (slice idx_data (12 * i) (12 * i + 4)),
   le_uint (slice idx_data (12 * i + 4) (12 * i + 8)),
   le_uint (slice idx_data (12 * i + 8) (12 * i + 12))).

(** The fields are unsigned 32-bit values. *)
Definition u32_fields (r : Z * Z * Z) : Prop :=
  let '(offset, size, comp_size) := r in
  0 <= offset < 2 ^ 32 /\ 0 <= size < 2 ^ 32 /\ 0 <= comp_size < 2 ^ 32.

(** The whole blocks of a buffer, without the trailing partial block. *)
Definition whole_blocks (idx_data : bytes) : bytes :=
  firstn (Z.to_nat (12 * (len idx_data / 12))) idx_data.

(** A data directory with the compressed pair of files only. *)
Definition compressed_module (idx_data dat_data : bytes) : data_dir :=
  {| mhc_zdx := Some idx_data; mhc_zdt := Some dat_data;
     mhc_idx := None; mhc_dat := None |}.

(** ** Slots *)

(** What becomes of a slot: it is empty, its payload cannot be
    decompressed, or its text is decoded. *)
Inductive slot_class := EmptySlot | FailedSlot | DecodedSlot.

Definition slot_class_eqb (a b : slot_class) : bool :=
  match a, b with
  | EmptySlot, EmptySlot | FailedSlot, FailedSlot
  | DecodedSlot, DecodedSlot => true
  | _, _ => false
  end.

Section Slots.

Variable decompress : bytes -> option bytes.

Definition classify (dat_data : bytes) (r : option (Z * Z * Z)) : slot_class :=
  match r with
  | None => FailedSlot
  | Some (offset, size, comp_size) =>
      if (offset =? 0) || (size =? 0) then EmptySlot
      else
        match decompress_text decompress
                (seek_read dat_data offset comp_size) with
        | Some _ => DecodedSlot
        | None => FailedSlot
        end
  end.

(** The entry a slot contributes: none when it is empty or fails, its
    text cut to 200 characters otherwise. *)
Definition slot_entry (idx_data dat_data : bytes) (i : Z) : list (Z * str) :=
  match unpacked idx_data i with
  | Some (offset, size, comp_size) =>
      if (offset =? 0) || (size =? 0) then []
      else
        match decompress_text decompress
                (seek_read dat_data offset comp_size) with
        | Some text => [(i, slice_to text 200)]
        | None => []
        end
  | None => []
  end.

(** The entries of all sampled slots, in slot order. *)
Definition decoded_entries (idx_data dat_data : bytes) : dict str :=
  flat_map (slot_entry idx_data dat_data) (sampled_slots idx_data).

(** The aggregate counts asked of the decoder: slots attempted, slots
    skipped as empty, slots failed. *)
Definition count_class (c : slot_class) (idx_data dat_data : bytes) : Z :=
  len (filter (slot_class_eqb c)
         (map (classify dat_data) (unpacked_records idx_data))).

Definition slot_counts (idx_data dat_data : bytes) : Z * Z * Z :=
  (len (sampled_slots idx_data),
   count_class EmptySlot idx_data dat_data,
   count_class FailedSlot idx_data dat_data).

(** A quantity is reported when it can be read off what
    [read_sword_index] returns and prints. *)
Definition reported {A : Type} (quantity : bytes -> bytes -> A) : Prop :=
  exists read_off : dict str * list message -> A,
    forall idx_data dat_data,
      read_off (read_sword_index decompress
                  (compressed_module idx_data dat_data))
      = quantity idx_data dat_data.

End Slots.

(** Two records that differ at most in the value of a positive size
    field. *)
Definition same_but_size (r1 r2 : option (Z * Z * Z)) : Prop :=
  match r1, r2 with
  | Some (o1, s1, c1), Some (o2, s2, c2) =>
      o1 = o2 /\ c1 = c2 /\ (s1 = s2 \/ (0 < s1 /\ 0 < s2))
  | _, _ => False
  end.

(** ** References *)

(** The number of slots the book table can address. *)
Definition capacity : Z := 50 * 200 * len KJV_BOOKS.

(** The line expected for one record: the dotted reference in the
    attribute, the escaped text as content. *)
Definition osis_line (item : Z * str) : str :=
  let '(i, text) := item in
  lit "    <verse osisID=" ++ dquote
    ++ (nth (Z.to_nat (i / 10000)) KJV_BOOKS [] ++ lit "."
          ++ str_of_int ((i mod 10000) / 200 + 1) ++ lit "."
          ++ str_of_int (i mod 200 + 1))
    ++ dquote ++ lit ">" ++ escape_text text ++ lit "</verse>" ++ newline.

(** The element expected for one record: none beyond the capacity, else
    its line. *)
Definition osis_element (item : Z * str) : list str :=
  if fst item <? capacity then [osis_line item] else [].

(** ** Escaping *)

(** The escape of one character. *)
Definition escape_char (c : Z) : str :=
  if c =? 38 then lit "&amp;"
  else if c =? 60 then lit "&lt;"
  else if c =? 62 then lit "&gt;"
  else [c].

(** Reading escaped text back: each of the three entities stands for its
    character, everything else for itself.  [skip] counts the characters
    of the entity just read that are still to be passed over. *)
Fixpoint unescape_from (skip : nat) (s : str) : str :=
  match s with
  | [] => []
  | c :: s' =>
      match skip with
      | S k => unescape_from k s'
      | O =>
          if starts_with (lit "&amp;") s then 38 :: unescape_from 4 s'
          else if starts_with (lit "&lt;") s then 60 :: unescape_from 3 s'
          else if starts_with (lit "&gt;") s then 62 :: unescape_from 3 s'
          else c :: unescape_from O s'
      end
  end.

Definition unescape_text (s : str) : str := unescape_from O s.

(** ** Decoding errors *)

(** What the UTF-8 decoder meets along its input, in order: a decoded
    character ([Some]) or an error range ([None]). *)
Fixpoint utf8_events (skip : nat) (bs : list Z) : list (option Z) :=
  match bs with
  | [] => []
  | _ :: rest =>
      match skip with
      | S k => utf8_events k rest
      | O =>
          match utf8_step bs with
          | Decoded cp n => Some cp :: utf8_events (pred n) rest
          | Malformed n => None :: utf8_events (pred n) rest
          | Truncated => [None]
          end
      end
  end.

(** Error ranges dropped, and error ranges replaced by U+FFFD. *)
Definition errors_dropped (events : list (option Z)) : str :=
  flat_map (fun e => match e with Some c => [c] | None => [] end) events.

Definition errors_replaced (events : list (option Z)) : str :=
  map (fun e => match e with Some c => c | None => REPLACEMENT_CHARACTER end)
    events.

(** ** Sample data *)

(** [zlib.compress(b'Hello')]. *)
Definition hello_z : list Z :=
  [120; 156; 243; 72; 205; 201; 201; 7; 0; 5; 140; 1; 245].

(** A data file: one filler byte (offset 0 means an empty slot), the
    compressed "Hello" at offset 1, and three bytes that are no zlib
    stream at offset 14. *)
Definition sample_dat : bytes := bytes_of ([0] ++ hello_z ++ [222; 173; 190]).

(** An index of two records: an empty slot, then "Hello". *)
Definition sample_idx : bytes :=
  index_record 0 0 0 ++ index_record 1 5 13.

(** An index of three records whose middle payload is corrupt. *)
Definition corrupt_idx : bytes :=
  index_record 1 5 13 ++ index_record 14 5 3 ++ index_record 1 5 13.

(** One-record indexes: an empty slot, and a slot whose payload is no
    bytes at all (a compressed length of 0). *)
Definition one_empty_idx : bytes := index_record 0 0 0.
Definition one_failed_idx : bytes := index_record 1 1 0.

(** Two-record indexes: two empty slots, and an empty slot followed by
    one whose payload is the three corrupt bytes. *)
Definition two_empty_idx : bytes := index_record 0 0 0 ++ index_record 0 7 0.
Definition empty_failed_idx : bytes :=
  index_record 0 0 0 ++ index_record 14 7 3.

(** A module whose configuration names the data directory [modules/x],
    which holds [data]. *)
Definition sample_module (data : data_dir) : module_dir :=
  {| conf_files := [Some [(lit "MHC", Some (lit "./modules/x/"))]];
     subdir := fun p =>
       if starts_with p (lit "modules/x") && starts_with (lit "modules/x") p
       then Some data else None |}.

(** A data directory without any index file. *)
Definition no_index : data_dir :=
  {| mhc_zdx := None; mhc_zdt := None; mhc_idx := None; mhc_dat := None |}.

(** [zlib.compress(b'A\xffB')]: a payload whose middle byte is not
    UTF-8. *)
Definition bad_utf8_z : list Z := [120; 156; 115; 252; 239; 4; 0; 3; 6; 1; 131].

(** A data file with that payload at offset 1, and an index of one record
    for it. *)
Definition bad_utf8_dat : bytes := bytes_of ([0] ++ bad_utf8_z).
Definition bad_utf8_idx : bytes := index_record 1 3 11.

(** Two entries, the second with characters to escape. *)
Definition two_entries : dict str := [(1, lit "Hello"); (10203, lit "a<b&c")].

(** Fifty-one entries, slots 0 to 50, each with the text "x". *)
Definition fifty_one : dict str := map (fun i => (i, lit "x")) (range 51).

(** ** The batch *)

(** A data directory with the uncompressed pair of files only. *)
Definition uncompressed_module (idx_data dat_data : bytes) : data_dir :=
  {| mhc_zdx := None; mhc_zdt := None;
     mhc_idx := Some idx_data; mhc_dat := Some dat_data |}.

(** The data path a configuration value gives: [value.strip('./')], the
    empty string standing in for a missing option. *)
Definition data_path_of (value : option str) : str :=
  strip (match value with Some v => v | None => [] end) (lit "./").

(** Whether the converter finds what it needs before reading the index:
    a first configuration file that parses and has a section, and the
    data directory its [DataPath] names. *)
Definition module_found (m : module_dir) : bool :=
  match conf_files m with
  | Some ((_, value) :: _) :: _ =>
      match subdir m (data_path_of value) with
      | Some _ => true
      | None => false
      end
  | _ => false
  end.

(** The line of an entry read from the first chapter of Genesis. *)
Definition genesis_line (item : Z * str) : str :=
  lit "    <verse osisID=" ++ dquote ++ lit "Gen.1."
    ++ str_of_int (fst item + 1) ++ dquote ++ lit ">"
    ++ escape_text (snd item) ++ lit "</verse>" ++ newline.

(** The characters [str.strip('./')] removes. *)
Definition path_char (c : Z) : bool := char_in (lit "./") c.

(** A module like [m] whose first configuration file gives the first
    section the [DataPath] value [value]. *)
Definition with_data_path (m : module_dir) (name : str) (value : option str)
  : module_dir :=
  {| conf_files := [Some [(name, value)]]; subdir := subdir m |}.

(** A string without the characters that matter in an attribute or in
    element content: the double quote, [&], [<] and [>]. *)
Definition markup_free (s : str) : bool :=
  forallb (fun c => negb ((c =? 34) || (c =? 38) || (c =? 60) || (c =? 62))) s.

End Notions.

(* ===================================================================== *)
(** * Properties *)
(* ===================================================================== *)

Import Py Sword Notions.

(** ** Facts about the runtime pieces *)

Lemma byte_val_range (b : byte) : 0 <= byte_val b < 256.
Proof.
  unfold byte_val. pose proof (Byte.to_N_bounded b). lia.
Qed.

Lemma le_uint_range (bs : bytes) : 0 <= le_uint bs < 256 ^ len bs.
Proof.
  unfold len. induction bs as [|b bs IH].
  - simpl. lia.
  - change (le_uint (b :: bs)) with (byte_val b + 256 * le_uint bs).
    pose proof (byte_val_range b).
    replace (Z.of_nat (length (b :: bs))) with (Z.succ (Z.of_nat (length bs)))
      by (simpl length; lia).
    rewrite Z.pow_succ_r by lia. lia.
Qed.

Lemma len_nonneg {A : Type} (l : list A) : 0 <= len l.
Proof. unfold len. lia. Qed.

(** A slice with ordered bounds inside the list. *)
Lemma slice_inside {A : Type} (l : list A) (lo hi : Z) :
  0 <= lo <= hi -> hi <= len l ->
  slice l lo hi = firstn (Z.to_nat (hi - lo)) (skipn (Z.to_nat lo) l).
Proof.
  intros Hlo Hhi. unfold slice, slice_bound.
  destruct (Z.ltb_spec lo 0); [lia|].
  destruct (Z.ltb_spec hi 0); [lia|].
  rewrite !Z.min_r by lia. rewrite !Z.max_r by lia. reflexivity.
Qed.

Lemma slice_inside_length {A : Type} (l : list A) (lo hi : Z) :
  0 <= lo <= hi -> hi <= len l -> len (slice l lo hi) = hi - lo.
Proof.
  intros Hlo Hhi. rewrite slice_inside by assumption.
  unfold len in *. rewrite length_firstn, length_skipn. lia.
Qed.

(** [l[:n]] keeps the first [n] elements. *)
Lemma slice_to_firstn {A : Type} (l : list A) (n : Z) :
  0 <= n -> slice_to l n = firstn (Z.to_nat n) l.
Proof.
  intros Hn. unfold slice_to, slice, slice_bound, len.
  destruct (Z.ltb_spec n 0); [lia|]. simpl (0 <? 0).
  cbv iota. rewrite (Z.min_r _ 0) by lia. rewrite Z.max_id.
  simpl skipn. rewrite Z.sub_0_r.
  destruct (Z.le_ge_cases n (Z.of_nat (length l))).
  - rewrite Z.min_r, Z.max_r by lia. reflexivity.
  - rewrite Z.min_l, Z.max_r by lia.
    rewrite Nat2Z.id, !firstn_all2 by lia. reflexivity.
Qed.

(** A slice of a slice, with all bounds in order. *)
Lemma slice_slice {A : Type} (l : list A) (a b c d : Z) :
  0 <= a -> a + d <= b -> b <= len l -> 0 <= c <= d ->
  slice (slice l a b) c d = slice l (a + c) (a + d).
Proof.
  intros Ha Hb Hl Hc.
  assert (Hlen : len (slice l a b) = b - a)
    by (apply slice_inside_length; lia).
  rewrite (slice_inside (slice l a b)) by lia.
  rewrite (slice_inside l a b) by lia.
  rewrite (slice_inside l (a + c) (a + d)) by lia.
  rewrite skipn_firstn_comm, firstn_firstn, skipn_skipn.
  f_equal; [|f_equal]; lia.
Qed.

Lemma range_length (n : Z) : length (range n) = Z.to_nat n.
Proof. unfold range. rewrite length_map, length_seq. reflexivity. Qed.

Lemma in_range (n i : Z) : In i (range n) <-> 0 <= i < n.
Proof.
  unfold range. rewrite in_map_iff. split.
  - intros [k [<- Hk]]. apply in_seq in Hk. lia.
  - intros Hi. exists (Z.to_nat i). split; [lia|]. apply in_seq. lia.
Qed.

(** ** The decompressor never runs out of fuel *)

Lemma take_bits_length (n : nat) (s r : Zlib.bits) (v : Z) :
  Zlib.take_bits n s = Some (v, r) -> length s = (n + length r)%nat.
Proof.
  revert s r v. induction n as [|n IH]; intros s r v; simpl.
  - intros [= _ <-]. reflexivity.
  - destruct s as [|b s]; [discriminate|].
    destruct (Zlib.take_bits n s) as [[v' r']|] eqn:E; [|discriminate].
    intros [= _ <-]. simpl. rewrite (IH s r' v' E). reflexivity.
Qed.

Lemma take_bits_nonneg (n : nat) (s r : Zlib.bits) (v : Z) :
  Zlib.take_bits n s = Some (v, r) -> 0 <= v.
Proof.
  revert s r v. induction n as [|n IH]; intros s r v; cbn [Zlib.take_bits].
  - intros [= <- _]. lia.
  - destruct s as [|b s]; [discriminate|].
    destruct (Zlib.take_bits n s) as [[v' r']|] eqn:E; [|discriminate].
    intros [= <- _]. specialize (IH s r' v' E).
    destruct v'; destruct b; simpl; lia.
Qed.

Lemma decode_from_counts_length (counts symbols : list Z)
    (code first index sym : Z) (s r : Zlib.bits) :
  Zlib.decode_from_counts counts symbols code first index s = Some (sym, r) ->
  (length r < length s)%nat.
Proof.
  revert code first index s.
  induction counts as [|count counts IH]; intros code first index s; simpl.
  - discriminate.
  - destruct s as [|b s]; [discriminate|].
    destruct (code + Z.b2z b - count <? first).
    + destruct (nth_error symbols _); [|discriminate].
      intros [= _ <-]. simpl. lia.
    + intros H. apply IH in H. simpl. lia.
Qed.

Lemma decode_length (h : Zlib.huffman) (s r : Zlib.bits) (sym : Z) :
  Zlib.decode h s = Some (sym, r) -> (length r < length s)%nat.
Proof. apply decode_from_counts_length. Qed.

Lemma base_extra_length (bases extras : list Z) (k x : Z) (s r : Zlib.bits) :
  Zlib.base_extra bases extras k s = Some (x, r) ->
  (length r <= length s)%nat.
Proof.
  unfold Zlib.base_extra.
  destruct (nth_error bases _); [|discriminate].
  destruct (nth_error extras _); [|discriminate].
  destruct (Zlib.take_bits _ s) as [[v r']|] eqn:E; [|discriminate].
  intros [= _ <-]. apply take_bits_length in E. lia.
Qed.

(** Each symbol of a block takes at least one bit: any fuel above the
    number of bits left gives the same result. *)
Lemma codes_fuel (f1 f2 : nat) (lencode distcode : Zlib.huffman)
    (s : Zlib.bits) (out : list Z) :
  (length s < f1)%nat -> (length s < f2)%nat ->
  Zlib.codes f1 lencode distcode s out = Zlib.codes f2 lencode distcode s out.
Proof.
  revert f2 s out. induction f1 as [|f1 IH]; intros f2 s out H1 H2; [lia|].
  destruct f2 as [|f2]; [lia|]. simpl.
  destruct (Zlib.decode lencode s) as [[sym s1]|] eqn:E1; [|reflexivity].
  apply decode_length in E1.
  destruct (sym <? 256); [apply IH; lia|].
  destruct (sym =? 256); [reflexivity|].
  destruct (Zlib.base_extra Zlib.lens Zlib.lext (sym - 257) s1)
    as [[n s2]|] eqn:E2; [|reflexivity].
  apply base_extra_length in E2.
  destruct (Zlib.decode distcode s2) as [[dsym s3]|] eqn:E3; [|reflexivity].
  apply decode_length in E3.
  destruct (Zlib.base_extra Zlib.dists Zlib.dext dsym s3)
    as [[dist s4]|] eqn:E4; [|reflexivity].
  apply base_extra_length in E4.
  destruct ((0 <? dist) && (dist <=? len out)); [|reflexivity].
  destruct (Zlib.copy_back _ _ out); [|reflexivity].
  apply IH; lia.
Qed.

Lemma codes_length (fuel : nat) (lencode distcode : Zlib.huffman)
    (s s' : Zlib.bits) (out out' : list Z) :
  Zlib.codes fuel lencode distcode s out = Some (s', out') ->
  (length s' < length s)%nat.
Proof.
  revert s out. induction fuel as [|fuel IH]; intros s out; simpl;
    [discriminate|].
  destruct (Zlib.decode lencode s) as [[sym s1]|] eqn:E1; [|discriminate].
  apply decode_length in E1.
  destruct (sym <? 256); [intros H; apply IH in H; lia|].
  destruct (sym =? 256); [intros [= <- _]; exact E1|].
  destruct (Zlib.base_extra Zlib.lens Zlib.lext (sym - 257) s1)
    as [[n s2]|] eqn:E2; [|discriminate].
  apply base_extra_length in E2.
  destruct (Zlib.decode distcode s2) as [[dsym s3]|] eqn:E3; [|discriminate].
  apply decode_length in E3.
  destruct (Zlib.base_extra Zlib.dists Zlib.dext dsym s3)
    as [[dist s4]|] eqn:E4; [|discriminate].
  apply base_extra_length in E4.
  destruct ((0 <? dist) && (dist <=? len out)); [|discriminate].
  destruct (Zlib.copy_back _ _ out); [|discriminate].
  intros H. apply IH in H. lia.
Qed.

(** Each code length symbol adds at least one length: the fuel of
    [read_lengths], the number of lengths to read, is never used up. *)
Lemma read_lengths_fuel (f1 f2 : nat) (lencode : Zlib.huffman) (total : nat)
    (acc : list Z) (s : Zlib.bits) :
  (total <= length acc + f1)%nat -> (total <= length acc + f2)%nat ->
  Zlib.read_lengths f1 lencode total acc s
  = Zlib.read_lengths f2 lencode total acc s.
Proof.
  revert f2 acc s. induction f1 as [|f1 IH]; intros f2 acc s H1 H2.
  - destruct f2 as [|f2]; [reflexivity|]. simpl.
    destruct (Nat.leb_spec total (length acc)); [reflexivity | lia].
  - destruct f2 as [|f2].
    { simpl. destruct (Nat.leb_spec total (length acc)); [reflexivity | lia]. }
    simpl. destruct (Nat.leb_spec total (length acc)); [reflexivity|].
    destruct (Zlib.decode lencode s) as [[sym s1]|]; [|reflexivity].
    destruct (sym <? 16); [apply IH; simpl; lia|].
    destruct (if sym =? 16 then (true, 3, 2%nat)
              else if sym =? 17 then (false, 3, 3%nat) else (false, 11, 7%nat))
      as [[prev_needed base] width] eqn:Ecase.
    assert (Hbase : 1 <= base).
    { destruct (sym =? 16); [injection Ecase as _ <- _; lia|].
      destruct (sym =? 17); injection Ecase as _ <- _; lia. }
    destruct (Zlib.take_bits width s1) as [[x s2]|] eqn:Ex; [|reflexivity].
    apply take_bits_nonneg in Ex.
    destruct (Nat.ltb_spec total (length acc + Z.to_nat (base + x)));
      [reflexivity|].
    destruct prev_needed.
    + destruct acc as [|l acc']; [reflexivity|].
      apply IH; rewrite length_app, repeat_length; simpl in *; lia.
    + apply IH; rewrite length_app, repeat_length; simpl in *; lia.
Qed.

Lemma take_bytes_length (n : nat) (s s' : Zlib.bits) (out out' : list Z) :
  Zlib.take_bytes n s out = Some (s', out') -> (length s' <= length s)%nat.
Proof.
  revert s out. induction n as [|n IH]; intros s out.
  - intros [= <- _]. lia.
  - cbn [Zlib.take_bytes].
    destruct (Zlib.take_bits 8 s) as [[b s1]|] eqn:E; [|discriminate].
    apply take_bits_length in E. intros H. apply IH in H. lia.
Qed.

Lemma take_fields_length (n width : nat) (s s' : Zlib.bits) (vs : list Z) :
  Zlib.take_fields n width s = Some (vs, s') -> (length s' <= length s)%nat.
Proof.
  revert s vs s'. induction n as [|n IH]; intros s vs s'.
  - intros [= _ <-]. lia.
  - cbn [Zlib.take_fields].
    destruct (Zlib.take_bits width s) as [[v s1]|] eqn:E; [|discriminate].
    apply take_bits_length in E.
    destruct (Zlib.take_fields n width s1) as [[vs' s2]|] eqn:E2;
      [|discriminate].
    apply IH in E2. intros [= _ <-]. lia.
Qed.

Lemma align_length (s : Zlib.bits) : (length (Zlib.align s) <= length s)%nat.
Proof. unfold Zlib.align. rewrite length_skipn. lia. Qed.

Lemma stored_length (s s' : Zlib.bits) (out out' : list Z) :
  Zlib.stored s out = Some (s', out') -> (length s' <= length s)%nat.
Proof.
  unfold Zlib.stored. pose proof (align_length s).
  destruct (Zlib.take_bits 16 (Zlib.align s)) as [[n s1]|] eqn:E1;
    [|discriminate].
  apply take_bits_length in E1.
  destruct (Zlib.take_bits 16 s1) as [[nn s2]|] eqn:E2; [|discriminate].
  apply take_bits_length in E2.
  destruct (nn =? 65535 - n); [|discriminate].
  intros H'. apply take_bytes_length in H'. lia.
Qed.

Lemma read_lengths_length (fuel : nat) (lencode : Zlib.huffman) (total : nat)
    (acc lengths : list Z) (s s' : Zlib.bits) :
  Zlib.read_lengths fuel lencode total acc s = Some (lengths, s') ->
  (length s' <= length s)%nat.
Proof.
  revert acc s. induction fuel as [|fuel IH]; intros acc s; simpl.
  - destruct (total <=? length acc)%nat; [|discriminate].
    intros [= _ <-]. lia.
  - destruct (total <=? length acc)%nat; [intros [= _ <-]; lia|].
    destruct (Zlib.decode lencode s) as [[sym s1]|] eqn:E1; [|discriminate].
    apply decode_length in E1.
    destruct (sym <? 16); [intros H; apply IH in H; lia|].
    destruct (if sym =? 16 then (true, 3, 2%nat)
              else if sym =? 17 then (false, 3, 3%nat) else (false, 11, 7%nat))
      as [[prev_needed base] width].
    destruct (Zlib.take_bits width s1) as [[x s2]|] eqn:Ex; [|discriminate].
    apply take_bits_length in Ex.
    destruct (total <? length acc + Z.to_nat (base + x))%nat; [discriminate|].
    destruct prev_needed.
    + destruct acc as [|l acc']; [discriminate|].
      intros H. apply IH in H. lia.
    + intros H. apply IH in H. lia.
Qed.

Lemma fixed_fuel (f1 f2 : nat) (s : Zlib.bits) (out : list Z) :
  (length s < f1)%nat -> (length s < f2)%nat ->
  Zlib.fixed f1 s out = Zlib.fixed f2 s out.
Proof. intros H1 H2. unfold Zlib.fixed. apply codes_fuel; assumption. Qed.

Lemma fixed_length (fuel : nat) (s s' : Zlib.bits) (out out' : list Z) :
  Zlib.fixed fuel s out = Some (s', out') -> (length s' <= length s)%nat.
Proof.
  unfold Zlib.fixed. intros H. apply codes_length in H. lia.
Qed.

Lemma dynamic_fuel (f1 f2 : nat) (s : Zlib.bits) (out : list Z) :
  (length s < f1)%nat -> (length s < f2)%nat ->
  Zlib.dynamic f1 s out = Zlib.dynamic f2 s out.
Proof.
  intros H1 H2. unfold Zlib.dynamic.
  destruct (Zlib.take_bits 5 s) as [[a s1]|] eqn:E1; [|reflexivity].
  apply take_bits_length in E1.
  destruct (Zlib.take_bits 5 s1) as [[b s2]|] eqn:E2; [|reflexivity].
  apply take_bits_length in E2.
  destruct (Zlib.take_bits 4 s2) as [[c s3]|] eqn:E3; [|reflexivity].
  apply take_bits_length in E3.
  destruct ((286 <? a + 257) || (30 <? b + 1)); [reflexivity|].
  destruct (Zlib.take_fields _ 3 s3) as [[sent s4]|] eqn:E4; [|reflexivity].
  apply take_fields_length in E4.
  destruct (Zlib.construct (map (Zlib.code_length_of sent) (range 19)))
    as [clcode free].
  destruct (negb (free =? 0)); [reflexivity|].
  destruct (Zlib.read_lengths _ clcode _ [] s4) as [[lengths s5]|] eqn:E5;
    [|reflexivity].
  apply read_lengths_length in E5.
  destruct (nth 256 (firstn (Z.to_nat (a + 257)) lengths) 0 =? 0);
    [reflexivity|].
  destruct (Zlib.construct (firstn (Z.to_nat (a + 257)) lengths))
    as [lencode lfree].
  destruct (Zlib.construct (skipn (Z.to_nat (a + 257)) lengths))
    as [distcode dfree].
  destruct (Zlib.usable _ lfree && Zlib.usable _ dfree); [|reflexivity].
  apply codes_fuel; lia.
Qed.

Lemma dynamic_length (fuel : nat) (s s' : Zlib.bits) (out out' : list Z) :
  Zlib.dynamic fuel s out = Some (s', out') -> (length s' <= length s)%nat.
Proof.
  unfold Zlib.dynamic.
  destruct (Zlib.take_bits 5 s) as [[a s1]|] eqn:E1; [|discriminate].
  apply take_bits_length in E1.
  destruct (Zlib.take_bits 5 s1) as [[b s2]|] eqn:E2; [|discriminate].
  apply take_bits_length in E2.
  destruct (Zlib.take_bits 4 s2) as [[c s3]|] eqn:E3; [|discriminate].
  apply take_bits_length in E3.
  destruct ((286 <? a + 257) || (30 <? b + 1)); [discriminate|].
  destruct (Zlib.take_fields _ 3 s3) as [[sent s4]|] eqn:E4; [|discriminate].
  apply take_fields_length in E4.
  destruct (Zlib.construct (map (Zlib.code_length_of sent) (range 19)))
    as [clcode free].
  destruct (negb (free =? 0)); [discriminate|].
  destruct (Zlib.read_lengths _ clcode _ [] s4) as [[lengths s5]|] eqn:E5;
    [|discriminate].
  apply read_lengths_length in E5.
  destruct (nth 256 (firstn (Z.to_nat (a + 257)) lengths) 0 =? 0);
    [discriminate|].
  destruct (Zlib.construct (firstn (Z.to_nat (a + 257)) lengths))
    as [lencode lfree].
  destruct (Zlib.construct (skipn (Z.to_nat (a + 257)) lengths))
    as [distcode dfree].
  destruct (Zlib.usable _ lfree && Zlib.usable _ dfree); [|discriminate].
  intros H. apply codes_length in H. lia.
Qed.

(** Each block takes at least three bits: any fuel above the number of
    bits of the stream gives the same result, so the fuel
    [zlib.decompress] starts with is never used up. *)
Lemma blocks_fuel (f1 f2 : nat) (s : Zlib.bits) (out : list Z) :
  (length s < f1)%nat -> (length s < f2)%nat ->
  Zlib.blocks f1 s out = Zlib.blocks f2 s out.
Proof.
  revert f2 s out. induction f1 as [|f1 IH]; intros f2 s out H1 H2; [lia|].
  destruct f2 as [|f2]; [lia|]. cbn [Zlib.blocks].
  destruct (Zlib.take_bits 1 s) as [[last s1]|] eqn:E1; [|reflexivity].
  apply take_bits_length in E1.
  destruct (Zlib.take_bits 2 s1) as [[type s2]|] eqn:E2; [|reflexivity].
  apply take_bits_length in E2.
  destruct (if type =? 0 then Zlib.stored s2 out
            else if type =? 1 then Zlib.fixed (S (length s2)) s2 out
            else if type =? 2 then Zlib.dynamic (S (length s2)) s2 out
            else None) as [[s3 out']|] eqn:Er; [|reflexivity].
  assert (Hs3 : (length s3 <= length s2)%nat).
  { destruct (type =? 0); [apply stored_length in Er; exact Er|].
    destruct (type =? 1); [apply fixed_length in Er; exact Er|].
    destruct (type =? 2); [apply dynamic_length in Er; exact Er|].
    discriminate Er. }
  destruct (last =? 1); [reflexivity|]. apply IH; lia.
Qed.

(** Without its two header bytes a payload is no zlib stream. *)
Lemma decompress_needs_header (data : bytes) :
  (length data < 2)%nat -> Zlib.decompress data = None.
Proof.
  intros Hlen. unfold Zlib.decompress.
  destruct data as [|b1 [|b2 data]]; simpl in *; try reflexivity. lia.
Qed.

(** The payloads of the sample data that do not decompress: the empty
    one, and three bytes that fail the header check. *)
Example corrupt_payloads :
  seek_read sample_dat 1 0 = []
  /\ Zlib.decompress [] = None
  /\ seek_read sample_dat 14 3 = bytes_of [222; 173; 190]
  /\ (256 * 222 + 173) mod 31 <> 0
  /\ Zlib.decompress (bytes_of [222; 173; 190]) = None.
Proof. repeat split; try (vm_compute; reflexivity). vm_compute. discriminate. Qed.

(** ** The book table *)

Lemma KJV_BOOKS_len : len KJV_BOOKS = 66.
Proof. reflexivity. Qed.

Lemma capacity_value : capacity = 660000.
Proof. reflexivity. Qed.

(** Inside the table, [KJV_BOOKS[k]] is the [k]-th book. *)
Lemma getitem_book (k : Z) :
  0 <= k < 66 ->
  getitem KJV_BOOKS k = Some (nth (Z.to_nat k) KJV_BOOKS []).
Proof.
  intros Hk. unfold getitem. rewrite KJV_BOOKS_len.
  destruct (Z.leb_spec 0 k); [|lia]. destruct (Z.ltb_spec k 66); [|lia].
  simpl andb. cbv iota. apply nth_error_nth'.
  change (length KJV_BOOKS) with 66%nat. lia.
Qed.

(** The guess for a slot below the capacity. *)
Lemma guess_verse_inside (i : Z) :
  0 <= i < capacity ->
  guess_verse i =
    Verse (nth (Z.to_nat (i / 10000)) KJV_BOOKS [])
      ((i mod 10000) / 200 + 1) (i mod 200 + 1).
Proof.
  intros Hi. rewrite capacity_value in Hi.
  unfold guess_verse, MAX_VERSES_PER_CHAPTER. change (50 * 200) with 10000.
  rewrite KJV_BOOKS_len.
  assert (Hk : 0 <= i / 10000 < 66).
  { split; [apply Z.div_pos; lia | apply Z.div_lt_upper_bound; lia]. }
  destruct (Z.ltb_spec (i / 10000) 66); [|lia].
  rewrite getitem_book by assumption. reflexivity.
Qed.

(** The guess for a slot at or above the capacity. *)
Lemma guess_verse_outside (i : Z) : capacity <= i -> guess_verse i = NoBook.
Proof.
  intros Hi. rewrite capacity_value in Hi.
  unfold guess_verse, MAX_VERSES_PER_CHAPTER. change (50 * 200) with 10000.
  rewrite KJV_BOOKS_len.
  assert (66 <= i / 10000) by (apply Z.div_le_lower_bound; lia).
  destruct (Z.ltb_spec (i / 10000) 66); [lia|]. reflexivity.
Qed.

(** C1: for a slot index [i] whose book ordinal [i / (50 * 200)] is below
    the 66 books of the table, the guessed reference is the book at that
    ordinal, chapter [((i mod 10000) / 200) + 1] and verse
    [(i mod 200) + 1], whatever the true chapter count of the book;
    chapter and verse stay within the fixed capacities 50 and 200; and for
    every index the verse computed from the index is the one computed
    from the remainder [i mod 10000]. *)
Theorem C1_reference_formula (i : Z) :
  0 <= i ->
  i / (50 * MAX_VERSES_PER_CHAPTER) < len KJV_BOOKS ->
  (exists book,
      getitem KJV_BOOKS (i / (50 * 200)) = Some book
      /\ guess_verse i
         = Verse book (((i mod (50 * 200)) / 200) + 1) ((i mod 200) + 1))
  /\ 1 <= ((i mod (50 * 200)) / 200) + 1 <= 50
  /\ 1 <= (i mod 200) + 1 <= 200
  /\ len KJV_BOOKS = 66
  /\ forall j, (j mod 200) + 1 = ((j mod (50 * 200)) mod 200) + 1.
Proof.
  intros Hi Hk. unfold MAX_VERSES_PER_CHAPTER in Hk.
  rewrite KJV_BOOKS_len in *. change (50 * 200) with 10000 in *.
  assert (Hcap : 0 <= i < capacity).
  { rewrite capacity_value. split; [assumption|].
    pose proof (Z.mul_div_le i 10000). pose proof (Z.mod_pos_bound i 10000).
    pose proof (Z.div_mod i 10000). lia. }
  pose proof (Z.mod_pos_bound i 10000).
  pose proof (Z.mod_pos_bound i 200).
  split.
  { exists (nth (Z.to_nat (i / 10000)) KJV_BOOKS []).
    split; [apply getitem_book; split; [apply Z.div_pos|]; lia|].
    apply guess_verse_inside; assumption. }
  split.
  { assert (0 <= (i mod 10000) / 200 < 50).
    { split; [apply Z.div_pos; lia | apply Z.div_lt_upper_bound; lia]. }
    lia. }
  split; [lia|]. split; [reflexivity|].
  intros j. rewrite Z.mod_mod_divide; [reflexivity|]. exists 50. reflexivity.
Qed.

(** C1 at slot 12345: Exodus, chapter 12, verse 146 (Exodus has 40
    chapters of far fewer verses). *)
Lemma C1_reference_formula_witness :
  0 <= 12345
  /\ 12345 / (50 * MAX_VERSES_PER_CHAPTER) < len KJV_BOOKS
  /\ guess_verse 12345 = Verse (lit "Exod") 12 146.
Proof.
  split; [lia|]. split; [vm_compute; reflexivity|].
  destruct (C1_reference_formula 12345) as [[book [Hbook Hguess]] _].
  - lia.
  - vm_compute. reflexivity.
  - rewrite Hguess. vm_compute in Hbook. injection Hbook as <-.
    vm_compute. reflexivity.
Defined.

(** The true chapter counts play no part: slot 19000 is guessed as
    chapter 46 of Exodus, which has 40 chapters. *)
Example guess_beyond_true_chapters :
  guess_verse 19000 = Verse (lit "Exod") 46 1
  /\ In (lit "Exod", 40) KJV_CHAPTERS.
Proof. split; [reflexivity|]. vm_compute. tauto. Qed.

(** ** Escaping *)

(** Replacing a single character is a character-wise substitution. *)
Lemma replace_char (a : Z) (new s : str) :
  replace s [a] new = flat_map (fun c => if a =? c then new else [c]) s.
Proof.
  unfold replace. induction s as [|c s IH].
  - reflexivity.
  - simpl replace_from. simpl flat_map. rewrite andb_true_r.
    destruct (a =? c); rewrite IH; reflexivity.
Qed.

(** The three replacements one after the other escape each character on
    its own. *)
Lemma escape_text_chars (text : str) :
  escape_text text = flat_map escape_char text.
Proof.
  unfold escape_text.
  change (lit "&") with [38]. change (lit "<") with [60].
  change (lit ">") with [62].
  rewrite !replace_char.
  induction text as [|c text IH].
  - reflexivity.
  - cbn [flat_map]. rewrite !flat_map_app, IH. f_equal.
    unfold escape_char.
    destruct (Z.eqb_spec 38 c) as [<-|H38]; [reflexivity|].
    destruct (Z.eqb_spec c 38) as [->|_]; [contradiction H38; reflexivity|].
    cbn [flat_map]. rewrite !app_nil_r.
    destruct (Z.eqb_spec 60 c) as [<-|H60]; [reflexivity|].
    destruct (Z.eqb_spec c 60) as [->|_]; [contradiction H60; reflexivity|].
    cbn [flat_map]. rewrite !app_nil_r.
    destruct (Z.eqb_spec 62 c) as [<-|H62]; [reflexivity|].
    destruct (Z.eqb_spec c 62) as [->|_]; [contradiction H62; reflexivity|].
    reflexivity.
Qed.

Lemma starts_with_other_head (a c : Z) (p s : str) :
  c <> a -> starts_with (a :: p) (c :: s) = false.
Proof.
  intros Hne. cbn [starts_with].
  destruct (Z.eqb_spec a c) as [Heq|_]; [|reflexivity].
  contradiction Hne. symmetry. exact Heq.
Qed.

Lemma unescape_from_cons (c : Z) (s : str) :
  unescape_from O (c :: s)
  = if starts_with (lit "&amp;") (c :: s) then 38 :: unescape_from 4 s
    else if starts_with (lit "&lt;") (c :: s) then 60 :: unescape_from 3 s
    else if starts_with (lit "&gt;") (c :: s) then 62 :: unescape_from 3 s
    else c :: unescape_from O s.
Proof. reflexivity. Qed.

(** Reading back the escape of one character gives the character. *)
Lemma unescape_escape_char (c : Z) (rest : str) :
  unescape_from O (escape_char c ++ rest) = c :: unescape_from O rest.
Proof.
  unfold escape_char.
  destruct (Z.eqb_spec c 38) as [->|H38]; [reflexivity|].
  destruct (Z.eqb_spec c 60) as [->|H60]; [reflexivity|].
  destruct (Z.eqb_spec c 62) as [->|H62]; [reflexivity|].
  change ([c] ++ rest) with (c :: rest). rewrite unescape_from_cons.
  change (lit "&amp;") with (38 :: [97; 109; 112; 59]).
  change (lit "&lt;") with (38 :: [108; 116; 59]).
  change (lit "&gt;") with (38 :: [103; 116; 59]).
  rewrite !starts_with_other_head by assumption. reflexivity.
Qed.

Lemma unescape_escape_chars (text : str) :
  unescape_text (flat_map escape_char text) = text.
Proof.
  unfold unescape_text. induction text as [|c text IH].
  - reflexivity.
  - simpl flat_map. rewrite unescape_escape_char, IH. reflexivity.
Qed.

(** C8: the escaping of the writer replaces [&], [<] and [>] by [&amp;],
    [&lt;] and [&gt;] and leaves every other character as it is (the
    ampersands of the entities written for [<] and [>] are not escaped
    again, the ampersand being replaced first); reading the escaped text
    back gives the original text. *)
Theorem C8_escape_roundtrip (text : str) :
  escape_text text = flat_map escape_char text
  /\ escape_char 38 = lit "&amp;"
  /\ escape_char 60 = lit "&lt;"
  /\ escape_char 62 = lit "&gt;"
  /\ Forall (fun c => c = 38 \/ c = 60 \/ c = 62 \/ escape_char c = [c]) text
  /\ unescape_text (escape_text text) = text.
Proof.
  split; [apply escape_text_chars|].
  split; [reflexivity|]. split; [reflexivity|]. split; [reflexivity|].
  split.
  - apply Forall_forall. intros c _. unfold escape_char.
    destruct (Z.eqb_spec c 38); [tauto|].
    destruct (Z.eqb_spec c 60); [tauto|].
    destruct (Z.eqb_spec c 62); tauto.
  - rewrite escape_text_chars. apply unescape_escape_chars.
Qed.

(** The order of the replacements matters: with the ampersand replaced
    last, the entity written for [<] would be escaped a second time. *)
Example ampersand_last_escapes_twice :
  replace (replace (lit "<") (lit "<") (lit "&lt;")) (lit "&") (lit "&amp;")
  = lit "&amp;lt;"
  /\ escape_text (lit "<") = lit "&lt;".
Proof. split; reflexivity. Qed.

(** ** What the output file accepts *)

Lemma encodable_app (a b : str) :
  encodable (a ++ b) = encodable a && encodable b.
Proof. apply forallb_app. Qed.

Lemma encodable_digits (d : Decimal.uint) :
  encodable (lit (NilEmpty.string_of_uint d)) = true.
Proof. induction d; simpl; auto. Qed.

(** The decimal form of an integer is ASCII. *)
Lemma encodable_str_of_int (n : Z) : encodable (str_of_int n) = true.
Proof.
  unfold str_of_int, NilZero.string_of_int, NilZero.string_of_uint.
  destruct (Z.to_int n) as [d|d].
  - destruct d; try reflexivity; apply encodable_digits.
  - change (encodable (45 :: lit match d with
                                 | Decimal.Nil => "0"%string
                                 | _ => NilEmpty.string_of_uint d
                                 end) = true).
    simpl encodable.
    destruct d; try reflexivity; apply encodable_digits.
Qed.

(** So are the book names. *)
Lemma encodable_book (k : nat) : encodable (nth k KJV_BOOKS []) = true.
Proof.
  assert (Hall : forallb encodable KJV_BOOKS = true) by reflexivity.
  rewrite forallb_forall in Hall.
  destruct (Nat.lt_ge_cases k (length KJV_BOOKS)) as [Hlt|Hge].
  - apply Hall. apply nth_In. exact Hlt.
  - rewrite nth_overflow by exact Hge. reflexivity.
Qed.

Lemma encodable_escape_char (c : Z) :
  encodable (escape_char c) = scalar_value c.
Proof.
  unfold escape_char.
  destruct (Z.eqb_spec c 38) as [->|_]; [reflexivity|].
  destruct (Z.eqb_spec c 60) as [->|_]; [reflexivity|].
  destruct (Z.eqb_spec c 62) as [->|_]; [reflexivity|].
  simpl. apply andb_true_r.
Qed.

Lemma encodable_escape_chars (text : str) :
  encodable (flat_map escape_char text) = encodable text.
Proof.
  induction text as [|c text IH]; [reflexivity|].
  simpl flat_map. rewrite encodable_app, encodable_escape_char, IH.
  reflexivity.
Qed.

(** A line can be written when its text can. *)
Lemma encodable_osis_line (i : Z) (text : str) :
  encodable (osis_line (i, text)) = encodable text.
Proof.
  unfold osis_line. rewrite !encodable_app.
  rewrite encodable_book, !encodable_str_of_int.
  rewrite escape_text_chars, encodable_escape_chars.
  change (encodable (lit "    <verse osisID=")) with true.
  change (encodable dquote) with true.
  change (encodable (lit ".")) with true.
  change (encodable (lit ">")) with true.
  change (encodable (lit "</verse>")) with true.
  change (encodable newline) with true.
  simpl andb. apply andb_true_r.
Qed.

Lemma osis_header_footer_encodable :
  forallb encodable (osis_header ++ osis_footer) = true.
Proof. reflexivity. Qed.

(** ** Slots and the capacity of the table *)

Lemma write_entries_inside (i : Z) (text : str) (items : list (Z * str))
    (written : list str) :
  0 <= i < capacity ->
  encodable text = true ->
  write_entries ((i, text) :: items) written
  = write_entries items (written ++ osis_element (i, text)).
Proof.
  intros Hi Htext. simpl write_entries.
  rewrite guess_verse_inside by assumption.
  unfold osis_element. simpl fst. destruct (Z.ltb_spec i capacity); [|lia].
  change (verse_line (nth (Z.to_nat (i / 10000)) KJV_BOOKS [])
            (i mod 10000 / 200 + 1) (i mod 200 + 1) text)
    with (osis_line (i, text)).
  unfold file_write. rewrite encodable_osis_line, Htext. reflexivity.
Qed.

(** A text with a surrogate cannot be written: the loop stops there. *)
Lemma write_entries_surrogate (i : Z) (text : str) (items : list (Z * str))
    (written : list str) :
  0 <= i < capacity ->
  encodable text = false ->
  write_entries ((i, text) :: items) written = (written, false).
Proof.
  intros Hi Htext. simpl write_entries.
  rewrite guess_verse_inside by assumption.
  change (verse_line (nth (Z.to_nat (i / 10000)) KJV_BOOKS [])
            (i mod 10000 / 200 + 1) (i mod 200 + 1) text)
    with (osis_line (i, text)).
  unfold file_write. rewrite encodable_osis_line, Htext. reflexivity.
Qed.

Lemma write_entries_outside (i : Z) (text : str) (items : list (Z * str))
    (written : list str) :
  capacity <= i ->
  write_entries ((i, text) :: items) written = write_entries items written.
Proof.
  intros Hi. simpl write_entries. rewrite guess_verse_outside by assumption.
  reflexivity.
Qed.

(** C6: a slot index below [50 * 200 * 66] always resolves to a
    reference, and its element is written (for a text the file can
    take); a slot index at or above that capacity resolves to none, and the
    writer passes over the entry without writing anything. *)
Theorem C6_capacity (i : Z) :
  0 <= i ->
  (i < 50 * 200 * len KJV_BOOKS ->
     exists book chapter verse,
       guess_verse i = Verse book chapter verse
       /\ forall text items written,
            encodable text = true ->
            write_entries ((i, text) :: items) written
            = write_entries items
                (written ++ [verse_line book chapter verse text]))
  /\ (50 * 200 * len KJV_BOOKS <= i ->
       guess_verse i = NoBook
       /\ (forall text items written,
             write_entries ((i, text) :: items) written
             = write_entries items written)
       /\ forall text,
            write_osis [(i, text)] = (osis_header ++ osis_footer, true)).
Proof.
  intros Hi. change (50 * 200 * len KJV_BOOKS) with capacity. split.
  - intros Hlt.
    exists (nth (Z.to_nat (i / 10000)) KJV_BOOKS []),
      ((i mod 10000) / 200 + 1), (i mod 200 + 1).
    split; [apply guess_verse_inside; lia|].
    intros text items written Htext.
    rewrite write_entries_inside by (assumption || lia).
    unfold osis_element. simpl fst.
    destruct (Z.ltb_spec i capacity); [reflexivity | lia].
  - intros Hge. split; [apply guess_verse_outside; assumption|].
    split; [intros; apply write_entries_outside; assumption|].
    intros text. unfold write_osis.
    rewrite slice_to_firstn by lia. simpl firstn.
    rewrite write_entries_outside by assumption. reflexivity.
Qed.

(** C6 at the first slot beyond the table. *)
Lemma C6_capacity_witness :
  0 <= 660000
  /\ guess_verse 660000 = NoBook
  /\ write_osis [(660000, lit "x")] = (osis_header ++ osis_footer, true).
Proof.
  split; [lia|].
  destruct (C6_capacity 660000) as [_ Hout]; [lia|].
  destruct Hout as [Hguess [_ Hdoc]]; [vm_compute; discriminate|].
  split; [exact Hguess | exact (Hdoc (lit "x"))].
Defined.

(** ** The index records *)

Lemma sampled_slots_length (idx_data : bytes) :
  len (sampled_slots idx_data) = Z.min (len idx_data / 12) 100.
Proof.
  unfold sampled_slots, len. rewrite range_length.
  assert (0 <= Z.of_nat (length idx_data) / 12) by (apply Z.div_pos; lia).
  lia.
Qed.

Lemma in_sampled_slots (idx_data : bytes) (i : Z) :
  In i (sampled_slots idx_data) <-> 0 <= i < Z.min (len idx_data / 12) 100.
Proof. unfold sampled_slots. apply in_range. Qed.

(** A slot below the number of entries has its whole block in the
    buffer. *)
Lemma block_inside (idx_data : bytes) (i : Z) :
  0 <= i < len idx_data / 12 -> 12 * i + 12 <= len idx_data.
Proof.
  intros Hi. pose proof (Z.mul_div_le (len idx_data) 12). lia.
Qed.

Lemma idx_entry_len (idx_data : bytes) (i : Z) :
  0 <= i < len idx_data / 12 -> len (idx_entry idx_data i) = 12.
Proof.
  intros Hi. pose proof (block_inside idx_data i Hi).
  unfold idx_entry. rewrite slice_inside_length; lia.
Qed.

(** The record unpacked at a slot is made of the three little-endian
    fields of its block. *)
Lemma unpacked_block (idx_data : bytes) (i : Z) :
  0 <= i < len idx_data / 12 ->
  unpacked idx_data i = Some (block_fields idx_data i).
Proof.
  intros Hi. pose proof (block_inside idx_data i Hi) as Hin.
  unfold unpacked, unpack_III. rewrite idx_entry_len by assumption.
  simpl (12 =? 12). cbv iota. unfold idx_entry, block_fields.
  replace (i * 12) with (12 * i) by lia.
  replace ((i + 1) * 12) with (12 * i + 12) by lia.
  rewrite !slice_slice by lia.
  rewrite Z.add_0_r. reflexivity.
Qed.

Lemma field_range (idx_data : bytes) (lo : Z) :
  0 <= lo -> lo + 4 <= len idx_data ->
  0 <= le_uint (slice idx_data lo (lo + 4)) < 2 ^ 32.
Proof.
  intros Hlo Hhi.
  pose proof (le_uint_range (slice idx_data lo (lo + 4))) as H.
  rewrite slice_inside_length in H by lia.
  replace (lo + 4 - lo) with 4 in H by lia.
  change (256 ^ 4) with (2 ^ 32) in H. exact H.
Qed.

Lemma block_fields_u32 (idx_data : bytes) (i : Z) :
  0 <= i < len idx_data / 12 -> u32_fields (block_fields idx_data i).
Proof.
  intros Hi. pose proof (block_inside idx_data i Hi).
  unfold u32_fields, block_fields.
  replace (12 * i + 8) with (12 * i + 4 + 4) by lia.
  replace (12 * i + 12) with (12 * i + 4 + 4 + 4) by lia.
  repeat split; apply field_range; lia.
Qed.

(** ** The scan of the slots *)

Lemma dict_set_fresh {V : Type} (d : dict V) (k : Z) (v : V) :
  (forall k', In k' (dict_keys d) -> k' <> k) ->
  dict_set d k v = d ++ [(k, v)].
Proof.
  induction d as [|[k' v'] d IH]; intros Hfresh; simpl.
  - reflexivity.
  - destruct (Z.eqb_spec k' k) as [Heq|Hne].
    + exfalso. apply (Hfresh k'); [left; reflexivity | assumption].
    + rewrite IH; [reflexivity|].
      intros k'' Hin. apply Hfresh. right. exact Hin.
Qed.

Section Scan.

Variable decompress : bytes -> option bytes.
Variables idx_data dat_data : bytes.

Lemma slot_entry_keys (i k : Z) :
  In k (dict_keys (slot_entry decompress idx_data dat_data i)) -> k = i.
Proof.
  unfold slot_entry.
  destruct (unpacked idx_data i) as [[[o s] c]|]; [|simpl; tauto].
  destruct ((o =? 0) || (s =? 0)); [simpl; tauto|].
  destruct (decompress_text decompress _); simpl; [|tauto].
  intros [H|[]]. symmetry. exact H.
Qed.

(** One turn of the loop on a slot with a whole block: the entry of the
    slot, if any, goes to the end of the dictionary, and no exception
    leaves the turn. *)
Lemma read_slot_entry (i : Z) (entries : dict str) :
  0 <= i < len idx_data / 12 ->
  (forall k, In k (dict_keys entries) -> k < i) ->
  read_slot decompress idx_data dat_data i entries
  = Some (entries ++ slot_entry decompress idx_data dat_data i).
Proof.
  intros Hi Hkeys. unfold read_slot, slot_entry.
  fold (unpacked idx_data i). rewrite unpacked_block by assumption.
  pose proof (block_fields_u32 idx_data i Hi) as Hu.
  destruct (block_fields idx_data i) as [[o s] c].
  destruct Hu as [Ho [Hs _]].
  destruct (Z.eqb_spec o 0) as [->|Hno]; [rewrite app_nil_r; reflexivity|].
  destruct (Z.eqb_spec s 0) as [->|Hns].
  { destruct (o >? 0); rewrite app_nil_r; reflexivity. }
  assert (Hgo : (o >? 0) = true) by (apply Z.gtb_lt; lia).
  assert (Hgs : (s >? 0) = true) by (apply Z.gtb_lt; lia).
  rewrite Hgo, Hgs. simpl andb. simpl orb. cbv iota.
  destruct (decompress_text decompress _) as [text|].
  - rewrite dict_set_fresh; [reflexivity|].
    intros k Hk. specialize (Hkeys k Hk). lia.
  - rewrite app_nil_r. reflexivity.
Qed.

Lemma read_slots_seq (n a : nat) (entries : dict str) :
  Z.of_nat (a + n) <= len idx_data / 12 ->
  (forall k, In k (dict_keys entries) -> k < Z.of_nat a) ->
  read_slots decompress idx_data dat_data (map Z.of_nat (seq a n)) entries
  = (entries
       ++ flat_map (slot_entry decompress idx_data dat_data)
            (map Z.of_nat (seq a n)),
     true).
Proof.
  revert a entries. induction n as [|n IH]; intros a entries Hn Hkeys.
  - simpl. rewrite app_nil_r. reflexivity.
  - simpl seq. simpl map. simpl read_slots.
    rewrite read_slot_entry; [|lia|assumption].
    rewrite IH.
    + simpl flat_map. rewrite app_assoc. reflexivity.
    + lia.
    + intros k Hk. unfold dict_keys in Hk. rewrite map_app in Hk.
      apply in_app_or in Hk. destruct Hk as [Hk|Hk].
      * specialize (Hkeys k Hk). lia.
      * apply slot_entry_keys in Hk. lia.
Qed.

(** The loop of [read_sword_index] always runs to its end, and leaves
    the entries of the sampled slots in slot order. *)
Lemma read_slots_sampled :
  read_slots decompress idx_data dat_data (sampled_slots idx_data) []
  = (decoded_entries decompress idx_data dat_data, true).
Proof.
  unfold decoded_entries, sampled_slots, range.
  assert (0 <= len idx_data / 12)
    by (apply Z.div_pos; [apply len_nonneg | lia]).
  rewrite read_slots_seq; [reflexivity | lia | simpl; tauto].
Qed.

(** What [read_sword_index] returns and prints once it has an index file
    and a data file. *)
Lemma read_sword_index_found (d : data_dir) (kind : index_kind) :
  index_files d = (kind, Some idx_data, Some dat_data) ->
  read_sword_index decompress d
  = (decoded_entries decompress idx_data dat_data,
     [ReadingIndex kind; ReadingData kind;
      FoundIndexEntries (len idx_data / 12);
      SuccessfullyRead (len (decoded_entries decompress idx_data dat_data))]).
Proof.
  intros Hfiles. unfold read_sword_index. rewrite Hfiles.
  rewrite read_slots_sampled. reflexivity.
Qed.

End Scan.

Lemma index_files_compressed (idx_data dat_data : bytes) :
  index_files (compressed_module idx_data dat_data)
  = (Compressed, Some idx_data, Some dat_data).
Proof. reflexivity. Qed.

(** The slices of a prefix that holds them are those of the buffer. *)
Lemma slice_prefix {A : Type} (l : list A) (m : nat) (a b : Z) :
  0 <= a <= b -> b <= Z.of_nat m -> (m <= length l)%nat ->
  slice (firstn m l) a b = slice l a b.
Proof.
  intros Hab Hb Hm.
  assert (Hlen : len (firstn m l) = Z.of_nat m)
    by (unfold len; rewrite firstn_length_le by assumption; reflexivity).
  rewrite (slice_inside (firstn m l)) by lia.
  rewrite (slice_inside l) by (unfold len; lia).
  rewrite skipn_firstn_comm, firstn_firstn. f_equal. lia.
Qed.

Lemma unpacked_records_blocks (idx_data : bytes) :
  unpacked_records idx_data
  = map (fun i => Some (block_fields idx_data i))
      (range (Z.min (len idx_data / 12) 100)).
Proof.
  unfold unpacked_records, sampled_slots. apply map_ext_in.
  intros i Hi. apply in_range in Hi. apply unpacked_block. lia.
Qed.

Lemma whole_blocks_len (idx_data : bytes) :
  len (whole_blocks idx_data) = 12 * (len idx_data / 12).
Proof.
  pose proof (Z.mul_div_le (len idx_data) 12).
  assert (0 <= len idx_data / 12)
    by (apply Z.div_pos; [apply len_nonneg | lia]).
  unfold whole_blocks, len in *. rewrite firstn_length_le by lia. lia.
Qed.

Lemma whole_blocks_entries (idx_data : bytes) :
  len (whole_blocks idx_data) / 12 = len idx_data / 12.
Proof.
  rewrite whole_blocks_len, Z.mul_comm. apply Z.div_mul. lia.
Qed.

Lemma whole_blocks_fields (idx_data : bytes) (i : Z) :
  0 <= i < len idx_data / 12 ->
  block_fields (whole_blocks idx_data) i = block_fields idx_data i.
Proof.
  intros Hi. pose proof (Z.mul_div_le (len idx_data) 12).
  unfold block_fields, whole_blocks.
  rewrite !slice_prefix by (unfold len in *; lia). reflexivity.
Qed.

(** The records unpacked do not depend on a trailing partial block. *)
Lemma unpacked_records_whole_blocks (idx_data : bytes) :
  unpacked_records (whole_blocks idx_data) = unpacked_records idx_data.
Proof.
  rewrite !unpacked_records_blocks, whole_blocks_entries.
  apply map_ext_in. intros i Hi. apply in_range in Hi.
  rewrite whole_blocks_fields by lia. reflexivity.
Qed.

(** C2, as the reader does it: the number of index entries found is
    [len(buffer) // 12], and the records unpacked are those of the first
    [min(len(buffer) // 12, 100)] whole 12-byte blocks, in order; every
    whole block unpacks to three little-endian unsigned 32-bit fields; the
    blocks after the first 100 and a trailing partial block are not looked
    at; the scan never ends in an error, and an empty buffer gives no
    record and no error. *)
Theorem C2_index_records (idx_data : bytes) :
  len (unpacked_records idx_data) = Z.min (len idx_data / 12) 100
  /\ unpacked_records idx_data
     = map (fun i => Some (block_fields idx_data i))
         (range (Z.min (len idx_data / 12) 100))
  /\ Forall (fun i => unpacked idx_data i = Some (block_fields idx_data i)
                      /\ u32_fields (block_fields idx_data i))
       (range (len idx_data / 12))
  /\ unpacked_records (whole_blocks idx_data) = unpacked_records idx_data
  /\ (forall decompress dat_data,
        snd (read_slots decompress idx_data dat_data
               (sampled_slots idx_data) []) = true
        /\ In (FoundIndexEntries (len idx_data / 12))
             (snd (read_sword_index decompress
                     (compressed_module idx_data dat_data))))
  /\ (forall decompress dat_data,
        read_sword_index decompress (compressed_module [] dat_data)
        = ([], [ReadingIndex Compressed; ReadingData Compressed;
                FoundIndexEntries 0; SuccessfullyRead 0])).
Proof.
  split.
  { unfold unpacked_records, len. rewrite length_map.
    apply sampled_slots_length. }
  split; [apply unpacked_records_blocks|].
  split.
  { apply Forall_forall. intros i Hi. apply in_range in Hi.
    split; [apply unpacked_block | apply block_fields_u32]; assumption. }
  split; [apply unpacked_records_whole_blocks|].
  split.
  - intros decompress dat_data. split.
    + rewrite read_slots_sampled. reflexivity.
    + rewrite (read_sword_index_found decompress idx_data dat_data _
                 Compressed) by reflexivity.
      simpl. tauto.
  - intros decompress dat_data. reflexivity.
Qed.

(** C2 as stated fails on a buffer of 101 blocks: 100 records are
    unpacked, not 101. *)
Lemma C2_counterexample :
  len (repeat x00 1212) / 12 = 101
  /\ len (unpacked_records (repeat x00 1212)) = 100
  /\ len (unpacked_records (repeat x00 1212)) <> len (repeat x00 1212) / 12.
Proof.
  split; [vm_compute; reflexivity|].
  split; [vm_compute; reflexivity|].
  vm_compute. discriminate.
Qed.

(** ** Failures and empty slots *)

Section Failures.

Variable decompress : bytes -> option bytes.

(** A payload that cannot be decompressed leaves the entries as they are
    and lets the loop go on. *)
Lemma read_slot_failed (idx_data dat_data : bytes) (i : Z)
    (entries : dict str) (offset size comp_size : Z) :
  unpacked idx_data i = Some (offset, size, comp_size) ->
  decompress_text decompress (seek_read dat_data offset comp_size) = None ->
  read_slot decompress idx_data dat_data i entries = Some entries.
Proof.
  intros Hrec Hfail. unfold read_slot. fold (unpacked idx_data i).
  rewrite Hrec. destruct ((offset >? 0) && (size >? 0)); [|reflexivity].
  rewrite Hfail. reflexivity.
Qed.

(** An empty slot leaves the entries as they are and lets the loop go
    on, whatever the data file and the decompressor. *)
Lemma read_slot_empty (idx_data dat_data : bytes) (i : Z)
    (entries : dict str) (offset size comp_size : Z) :
  unpacked idx_data i = Some (offset, size, comp_size) ->
  offset = 0 \/ size = 0 ->
  read_slot decompress idx_data dat_data i entries = Some entries.
Proof.
  intros Hrec Hempty. unfold read_slot. fold (unpacked idx_data i).
  rewrite Hrec. destruct Hempty as [-> | ->].
  - reflexivity.
  - destruct (offset >? 0); reflexivity.
Qed.

(** The entries are exactly those of the sampled slots that have one. *)
Lemma in_decoded_entries (idx_data dat_data : bytes) (j : Z) (text : str) :
  In (j, text) (decoded_entries decompress idx_data dat_data)
  <-> In j (sampled_slots idx_data)
      /\ slot_entry decompress idx_data dat_data j = [(j, text)].
Proof.
  unfold decoded_entries. rewrite in_flat_map. split.
  - intros [i [Hi Hin]].
    assert (j = i).
    { apply (slot_entry_keys decompress idx_data dat_data).
      unfold dict_keys. apply (in_map fst) in Hin. exact Hin. }
    subst i. split; [assumption|].
    unfold slot_entry in *.
    destruct (unpacked idx_data j) as [[[o z] c]|]; [|destruct Hin].
    destruct ((o =? 0) || (z =? 0)); [destruct Hin|].
    destruct (decompress_text decompress _); [|destruct Hin].
    destruct Hin as [Hin|[]]. rewrite Hin. reflexivity.
  - intros [Hj Hentry]. exists j. split; [assumption|].
    rewrite Hentry. left. reflexivity.
Qed.

End Failures.

(** C3, as the reader does it: a payload that fails to decompress is
    passed over and the loop goes on to its end; the entries returned are
    exactly those of the sampled slots that are not empty and whose
    payload decompresses, in slot order, whatever happens at the other
    slots; what is reported is the number of index entries found and the
    number of entries read. *)
Theorem C3_failure_does_not_abort (decompress : bytes -> option bytes)
    (d : data_dir) (kind : index_kind) (idx_data dat_data : bytes) :
  index_files d = (kind, Some idx_data, Some dat_data) ->
  (forall i entries offset size comp_size,
      unpacked idx_data i = Some (offset, size, comp_size) ->
      decompress_text decompress (seek_read dat_data offset comp_size) = None ->
      read_slot decompress idx_data dat_data i entries = Some entries
      /\ forall slots,
           read_slots decompress idx_data dat_data (i :: slots) entries
           = read_slots decompress idx_data dat_data slots entries)
  /\ read_slots decompress idx_data dat_data (sampled_slots idx_data) []
     = (decoded_entries decompress idx_data dat_data, true)
  /\ (forall j text,
        In (j, text) (fst (read_sword_index decompress d))
        <-> In j (sampled_slots idx_data)
            /\ slot_entry decompress idx_data dat_data j = [(j, text)])
  /\ read_sword_index decompress d
     = (decoded_entries decompress idx_data dat_data,
        [ReadingIndex kind; ReadingData kind;
         FoundIndexEntries (len idx_data / 12);
         SuccessfullyRead
           (len (decoded_entries decompress idx_data dat_data))]).
Proof.
  intros Hfiles. split.
  { intros i entries offset size comp_size Hrec Hfail.
    pose proof (read_slot_failed decompress idx_data dat_data i entries
                  offset size comp_size Hrec Hfail) as Hslot.
    split; [exact Hslot|]. intros slots. simpl read_slots.
    rewrite Hslot. reflexivity. }
  split; [apply read_slots_sampled|].
  rewrite (read_sword_index_found decompress idx_data dat_data d kind Hfiles).
  split; [|reflexivity].
  intros j text. simpl fst. apply in_decoded_entries.
Qed.

(** C3 on an index of three records whose middle payload is corrupt: the
    two others are read. *)
Lemma C3_failure_does_not_abort_witness :
  index_files (compressed_module corrupt_idx sample_dat)
  = (Compressed, Some corrupt_idx, Some sample_dat)
  /\ read_sword_index Zlib.decompress (compressed_module corrupt_idx sample_dat)
     = ([(0, lit "Hello"); (2, lit "Hello")],
        [ReadingIndex Compressed; ReadingData Compressed;
         FoundIndexEntries 3; SuccessfullyRead 2]).
Proof.
  split; [reflexivity|].
  destruct (C3_failure_does_not_abort Zlib.decompress
              (compressed_module corrupt_idx sample_dat) Compressed
              corrupt_idx sample_dat eq_refl) as [_ [_ [_ Hread]]].
  rewrite Hread. vm_compute. reflexivity.
Defined.

(** C3 as stated fails: the counts of slots skipped and failed are not
    reported.  An index whose only slot is empty and one whose only slot
    fails give the same entries and the same messages. *)
Lemma C3_counterexample :
  read_sword_index Zlib.decompress (compressed_module one_empty_idx sample_dat)
  = read_sword_index Zlib.decompress
      (compressed_module one_failed_idx sample_dat)
  /\ slot_counts Zlib.decompress one_empty_idx sample_dat = (1, 1, 0)
  /\ slot_counts Zlib.decompress one_failed_idx sample_dat = (1, 0, 1)
  /\ ~ reported Zlib.decompress (slot_counts Zlib.decompress).
Proof.
  assert (Hsame :
    read_sword_index Zlib.decompress
      (compressed_module one_empty_idx sample_dat)
    = read_sword_index Zlib.decompress
        (compressed_module one_failed_idx sample_dat))
    by (vm_compute; reflexivity).
  assert (Hempty : slot_counts Zlib.decompress one_empty_idx sample_dat
                   = (1, 1, 0)) by (vm_compute; reflexivity).
  assert (Hfailed : slot_counts Zlib.decompress one_failed_idx sample_dat
                    = (1, 0, 1)) by (vm_compute; reflexivity).
  repeat split; try assumption.
  intros [read_off Hread].
  pose proof (Hread one_empty_idx sample_dat) as H1.
  pose proof (Hread one_failed_idx sample_dat) as H2.
  rewrite Hsame, H2, Hfailed in H1. rewrite Hempty in H1. discriminate H1.
Qed.

(** C7, as the reader does it: a record whose offset or size is 0 adds no
    entry for its slot, takes the branch that never decompresses anything
    (so whatever the data file and the decompressor, it cannot fail), and
    the loop goes on with the next slot on the same entries. *)
Theorem C7_empty_slot (decompress : bytes -> option bytes)
    (idx_data dat_data : bytes) (i offset size comp_size : Z) :
  unpacked idx_data i = Some (offset, size, comp_size) ->
  offset = 0 \/ size = 0 ->
  (forall entries,
      read_slot decompress idx_data dat_data i entries = Some entries
      /\ forall slots,
           read_slots decompress idx_data dat_data (i :: slots) entries
           = read_slots decompress idx_data dat_data slots entries)
  /\ slot_entry decompress idx_data dat_data i = []
  /\ classify decompress dat_data (unpacked idx_data i) = EmptySlot
  /\ forall text,
       ~ In (i, text) (decoded_entries decompress idx_data dat_data).
Proof.
  intros Hrec Hempty.
  assert (Hzero : (offset =? 0) || (size =? 0) = true).
  { destruct Hempty as [-> | ->]; [reflexivity|]. apply orb_true_r. }
  assert (Hentry : slot_entry decompress idx_data dat_data i = []).
  { unfold slot_entry. rewrite Hrec, Hzero. reflexivity. }
  split.
  { intros entries.
    pose proof (read_slot_empty decompress idx_data dat_data i entries
                  offset size comp_size Hrec Hempty) as Hslot.
    split; [exact Hslot|]. intros slots. simpl read_slots.
    rewrite Hslot. reflexivity. }
  split; [exact Hentry|].
  split.
  { rewrite Hrec. unfold classify. rewrite Hzero. reflexivity. }
  intros text Hin. apply in_decoded_entries in Hin.
  destruct Hin as [_ Hin]. rewrite Hentry in Hin. discriminate Hin.
Qed.

(** C7 on the sample index, whose slot 0 is empty. *)
Lemma C7_empty_slot_witness :
  unpacked sample_idx 0 = Some (0, 0, 0)
  /\ (0 = 0 \/ 0 = 0)
  /\ read_slot Zlib.decompress sample_idx sample_dat 0 [] = Some []
  /\ classify Zlib.decompress sample_dat (unpacked sample_idx 0) = EmptySlot.
Proof.
  assert (Hrec : unpacked sample_idx 0 = Some (0, 0, 0)) by reflexivity.
  split; [exact Hrec|]. split; [left; reflexivity|].
  destruct (C7_empty_slot Zlib.decompress sample_idx sample_dat 0 0 0 0 Hrec
              (or_introl eq_refl)) as [Hslot [_ [Hclass _]]].
  split; [exact (proj1 (Hslot [])) | exact Hclass].
Defined.

(** C7 as stated fails: empty slots are not counted.  An index of two
    empty slots and one of an empty and a failing slot give the same
    entries and the same messages. *)
Lemma C7_counterexample :
  read_sword_index Zlib.decompress (compressed_module two_empty_idx sample_dat)
  = read_sword_index Zlib.decompress
      (compressed_module empty_failed_idx sample_dat)
  /\ count_class Zlib.decompress EmptySlot two_empty_idx sample_dat = 2
  /\ count_class Zlib.decompress EmptySlot empty_failed_idx sample_dat = 1
  /\ ~ reported Zlib.decompress (count_class Zlib.decompress EmptySlot).
Proof.
  assert (Hsame :
    read_sword_index Zlib.decompress
      (compressed_module two_empty_idx sample_dat)
    = read_sword_index Zlib.decompress
        (compressed_module empty_failed_idx sample_dat))
    by (vm_compute; reflexivity).
  assert (Htwo : count_class Zlib.decompress EmptySlot two_empty_idx
                   sample_dat = 2) by (vm_compute; reflexivity).
  assert (Hone : count_class Zlib.decompress EmptySlot empty_failed_idx
                   sample_dat = 1) by (vm_compute; reflexivity).
  repeat split; try assumption.
  intros [read_off Hread].
  pose proof (Hread two_empty_idx sample_dat) as H1.
  pose proof (Hread empty_failed_idx sample_dat) as H2.
  rewrite Hsame, H2, Hone in H1. rewrite Htwo in H1. discriminate H1.
Qed.

(** ** The size field *)

Section SizeField.

Variable decompress : bytes -> option bytes.

(** One turn of the loop on two indexes whose records at this slot
    differ at most in a positive size. *)
Lemma read_slot_same_but_size (idx1 idx2 dat_data : bytes) (i : Z)
    (entries : dict str) :
  same_but_size (unpacked idx1 i) (unpacked idx2 i) ->
  read_slot decompress idx1 dat_data i entries
  = read_slot decompress idx2 dat_data i entries.
Proof.
  unfold same_but_size, read_slot. fold (unpacked idx1 i) (unpacked idx2 i).
  destruct (unpacked idx1 i) as [[[o1 s1] c1]|]; [|tauto].
  destruct (unpacked idx2 i) as [[[o2 s2] c2]|]; [|tauto].
  intros [<- [<- Hsize]].
  destruct Hsize as [<- | [H1 H2]]; [reflexivity|].
  assert (E1 : (s1 >? 0) = true) by (apply Z.gtb_lt; lia).
  assert (E2 : (s2 >? 0) = true) by (apply Z.gtb_lt; lia).
  rewrite E1, E2. reflexivity.
Qed.

Lemma read_slots_same_but_size (idx1 idx2 dat_data : bytes)
    (slots : list Z) (entries : dict str) :
  (forall i, In i slots -> same_but_size (unpacked idx1 i) (unpacked idx2 i)) ->
  read_slots decompress idx1 dat_data slots entries
  = read_slots decompress idx2 dat_data slots entries.
Proof.
  revert entries. induction slots as [|i slots IH]; intros entries Hsame.
  - reflexivity.
  - simpl read_slots.
    rewrite (read_slot_same_but_size idx1 idx2) by (apply Hsame; left; reflexivity).
    destruct (read_slot decompress idx2 dat_data i entries); [|reflexivity].
    apply IH. intros j Hj. apply Hsame. right. exact Hj.
Qed.

End SizeField.

(** C10: two runs on indexes of the same length whose records differ at
    most in the value of a positive size field, with the same offsets, the
    same compressed sizes and the same data file, return the same entries
    and print the same messages: the size is only compared with 0, and
    the bytes read and decompressed are [comp_size] bytes from [offset]. *)
Theorem C10_size_noninterference (decompress : bytes -> option bytes)
    (d1 d2 : data_dir) (kind : index_kind) (idx1 idx2 : bytes)
    (dat_file : option bytes) :
  index_files d1 = (kind, Some idx1, dat_file) ->
  index_files d2 = (kind, Some idx2, dat_file) ->
  len idx1 = len idx2 ->
  (forall i, In i (sampled_slots idx1) ->
             same_but_size (unpacked idx1 i) (unpacked idx2 i)) ->
  read_sword_index decompress d1 = read_sword_index decompress d2.
Proof.
  intros H1 H2 Hlen Hsame. unfold read_sword_index. rewrite H1, H2.
  destruct dat_file as [dat_data|]; [|reflexivity].
  assert (Hslots : sampled_slots idx2 = sampled_slots idx1)
    by (unfold sampled_slots; rewrite Hlen; reflexivity).
  rewrite Hslots, Hlen.
  rewrite (read_slots_same_but_size decompress idx1 idx2 dat_data
             (sampled_slots idx1) [] Hsame).
  reflexivity.
Qed.

(** C10 on two one-record indexes that give "Hello" the sizes 5 and
    999. *)
Lemma C10_size_noninterference_witness :
  len (index_record 1 5 13) = len (index_record 1 999 13)
  /\ same_but_size (unpacked (index_record 1 5 13) 0)
       (unpacked (index_record 1 999 13) 0)
  /\ read_sword_index Zlib.decompress
       (compressed_module (index_record 1 5 13) sample_dat)
     = read_sword_index Zlib.decompress
         (compressed_module (index_record 1 999 13) sample_dat)
  /\ fst (read_sword_index Zlib.decompress
            (compressed_module (index_record 1 999 13) sample_dat))
     = [(0, lit "Hello")].
Proof.
  split; [reflexivity|].
  split; [vm_compute; repeat split; right; split; reflexivity|].
  split; [|vm_compute; reflexivity].
  apply (C10_size_noninterference Zlib.decompress _ _ Compressed
           (index_record 1 5 13) (index_record 1 999 13) (Some sample_dat)).
  - reflexivity.
  - reflexivity.
  - reflexivity.
  - intros i Hi. apply in_sampled_slots in Hi.
    assert (i = 0) by (change (len (index_record 1 5 13) / 12) with 1 in Hi; lia).
    subst i. vm_compute. repeat split. right. split; reflexivity.
Defined.

(** ** The writer *)

Lemma osis_element_outside (i : Z) (text : str) :
  capacity <= i -> osis_element (i, text) = [].
Proof.
  intros Hi. unfold osis_element. simpl fst.
  destruct (Z.ltb_spec i capacity); [lia | reflexivity].
Qed.

(** The loop of the writer on entries of non-negative slot numbers: it
    runs to its end and writes the element of each entry in turn. *)
Lemma write_entries_elements (items : list (Z * str)) (written : list str) :
  Forall (fun item => 0 <= fst item /\ encodable (snd item) = true) items ->
  write_entries items written = (written ++ flat_map osis_element items, true).
Proof.
  intros Hitems. revert written.
  induction Hitems as [|[i text] items [Hi Htext] _ IH]; intros written.
  - simpl. rewrite app_nil_r. reflexivity.
  - simpl fst in Hi. simpl snd in Htext.
    destruct (Z.lt_ge_cases i capacity) as [Hlt|Hge].
    + rewrite write_entries_inside by (assumption || lia). rewrite IH.
      simpl flat_map. rewrite app_assoc. reflexivity.
    + rewrite write_entries_outside by assumption. rewrite IH.
      simpl flat_map. rewrite osis_element_outside by assumption.
      reflexivity.
Qed.

Lemma flat_map_osis_element_inside (items : list (Z * str)) :
  Forall (fun item => fst item < capacity) items ->
  flat_map osis_element items = map osis_line items.
Proof.
  induction 1 as [|item items Hi _ IH]; [reflexivity|].
  simpl. rewrite IH. unfold osis_element.
  destruct (Z.ltb_spec (fst item) capacity); [reflexivity | lia].
Qed.

(** C4, as the writer does it: of the records it is given, the writer
    takes the first 50 in order, and for each of them whose slot number is
    below the capacity of the book table writes one element, with the
    dotted reference [book.chapter.verse] in the attribute and the escaped
    text as content; given at most 50 records, all below the capacity, it
    writes exactly one element per record, in order, between the header
    and the footer.  The records are decoded ones: their slot numbers are
    not negative and their texts hold no surrogate. *)
Theorem C4_elements_written (entries : dict str) :
  Forall (fun item => 0 <= fst item /\ encodable (snd item) = true) entries ->
  write_osis entries
  = (osis_header ++ flat_map osis_element (firstn 50 entries) ++ osis_footer,
     true)
  /\ ((length entries <= 50)%nat ->
      Forall (fun item => fst item < capacity) entries ->
      write_osis entries
      = (osis_header ++ map osis_line entries ++ osis_footer, true)).
Proof.
  intros Hkeys.
  assert (Hdoc : write_osis entries
                 = (osis_header ++ flat_map osis_element (firstn 50 entries)
                      ++ osis_footer, true)).
  { unfold write_osis. rewrite slice_to_firstn by lia.
    change (Z.to_nat 50) with 50%nat.
    rewrite write_entries_elements.
    - rewrite app_assoc. reflexivity.
    - apply Forall_forall. intros item Hin.
      rewrite Forall_forall in Hkeys. apply Hkeys.
      apply (In_nth_error (firstn 50 entries)) in Hin. destruct Hin as [k Hk].
      apply (nth_error_In entries k).
      rewrite nth_error_firstn in Hk.
      destruct (Nat.ltb k 50); [exact Hk | discriminate Hk]. }
  split; [exact Hdoc|].
  intros Hlen Hcap. rewrite Hdoc.
  rewrite firstn_all2 by assumption.
  rewrite flat_map_osis_element_inside by assumption. reflexivity.
Qed.

(** C4 on two entries. *)
Lemma C4_elements_written_witness :
  Forall (fun item => 0 <= fst item /\ encodable (snd item) = true)
    two_entries
  /\ fst (write_osis two_entries)
     = osis_header
         ++ [lit "    <verse osisID=" ++ dquote ++ lit "Gen.1.2" ++ dquote
               ++ lit ">Hello</verse>" ++ newline;
             lit "    <verse osisID=" ++ dquote ++ lit "Exod.2.4" ++ dquote
               ++ lit ">a&lt;b&amp;c</verse>" ++ newline]
         ++ osis_footer.
Proof.
  assert (Hkeys : Forall (fun item => 0 <= fst item
                                      /\ encodable (snd item) = true)
                    two_entries).
  { repeat constructor; simpl; lia. }
  split; [exact Hkeys|].
  rewrite (proj1 (C4_elements_written two_entries Hkeys)).
  vm_compute. reflexivity.
Defined.

(** C4 as stated fails: of 51 records only 50 get an element, and a
    record at the capacity of the book table gets none. *)
Lemma C4_counterexample :
  length fifty_one = 51%nat
  /\ length (fst (write_osis fifty_one))
     = (length osis_header + 50 + length osis_footer)%nat
  /\ fst (write_osis fifty_one)
     <> osis_header ++ map osis_line fifty_one ++ osis_footer
  /\ write_osis [(660000, lit "x")] = (osis_header ++ osis_footer, true).
Proof.
  split; [reflexivity|].
  split; [vm_compute; reflexivity|].
  split; [|vm_compute; reflexivity].
  intros H. apply (f_equal (@length str)) in H.
  vm_compute in H. discriminate H.
Qed.

(** ** Modules without an index, modules without entries *)

Lemma write_osis_nothing : write_osis [] = (osis_header ++ osis_footer, true).
Proof. reflexivity. Qed.

(** Without an index file the reader says so and returns no entry. *)
Lemma read_sword_index_no_index (decompress : bytes -> option bytes)
    (d : data_dir) (kind : index_kind) (dat_file : option bytes) :
  index_files d = (kind, None, dat_file) ->
  read_sword_index decompress d = ([], [IndexFileNotFound]).
Proof.
  intros Hfiles. unfold read_sword_index. rewrite Hfiles. reflexivity.
Qed.

(** The modules that are given up: no configuration file, or no data
    directory. *)
Lemma no_conf_file_aborts (decompress : bytes -> option bytes) (m : module_dir) :
  conf_files m = [] ->
  convert_module_to_osis decompress m
  = {| returned := false; output := None;
       printed := [Converting; NoConfFile] |}.
Proof.
  intros Hconf. unfold convert_module_to_osis. rewrite Hconf. reflexivity.
Qed.

Lemma no_data_directory_aborts (decompress : bytes -> option bytes)
    (m : module_dir) (name : str) (value : option str)
    (sections : conf_file) (files : list (option conf_file)) :
  conf_files m = Some ((name, value) :: sections) :: files ->
  subdir m (strip (match value with Some v => v | None => [] end) (lit "./"))
  = None ->
  returned (convert_module_to_osis decompress m) = false
  /\ output (convert_module_to_osis decompress m) = None.
Proof.
  intros Hconf Hdir. unfold convert_module_to_osis. rewrite Hconf, Hdir.
  split; reflexivity.
Qed.

(** The batch goes through every module, whatever the others did. *)
Lemma main_results (decompress : bytes -> option bytes)
    (before after : list module_dir) (m : module_dir) :
  snd (main decompress (before ++ m :: after))
  = snd (main decompress before)
      ++ convert_module_to_osis decompress m :: snd (main decompress after).
Proof. unfold main. simpl snd. rewrite map_app. reflexivity. Qed.

(** C5, as the converter does it: for a module whose configuration and
    data directory are found, a missing index file does not end the
    conversion; the reader reports it and returns no entry, and the
    converter writes the same minimal document (header and footer, no
    element) and returns the same success as when an index is found and no
    entry decodes.  The two outcomes differ in the messages printed only;
    in both the batch goes on with the other modules. *)
Theorem C5_no_index_writes_placeholder (decompress : bytes -> option bytes)
    (m : module_dir) (name : str) (value : option str)
    (sections : conf_file) (files : list (option conf_file))
    (data : data_dir) :
  conf_files m = Some ((name, value) :: sections) :: files ->
  subdir m (strip (match value with Some v => v | None => [] end) (lit "./"))
  = Some data ->
  (forall kind dat_file,
      index_files data = (kind, None, dat_file) ->
      convert_module_to_osis decompress m
      = {| returned := true;
           output := Some (osis_header ++ osis_footer);
           printed :=
             [Converting;
              ModuleAndDataPath name
                (strip (match value with Some v => v | None => [] end)
                   (lit "./"));
              IndexFileNotFound; NoEntriesPlaceholder; Created;
              BasicExportNote] |})
  /\ (forall kind idx_data dat_data,
        index_files data = (kind, Some idx_data, Some dat_data) ->
        decoded_entries decompress idx_data dat_data = [] ->
        convert_module_to_osis decompress m
        = {| returned := true;
             output := Some (osis_header ++ osis_footer);
             printed :=
               [Converting;
                ModuleAndDataPath name
                  (strip (match value with Some v => v | None => [] end)
                     (lit "./"));
                ReadingIndex kind; ReadingData kind;
                FoundIndexEntries (len idx_data / 12); SuccessfullyRead 0;
                NoEntriesPlaceholder; Created; BasicExportNote] |})
  /\ (forall before after,
        snd (main decompress (before ++ m :: after))
        = snd (main decompress before)
            ++ convert_module_to_osis decompress m
            :: snd (main decompress after)).
Proof.
  intros Hconf Hdir. split; [|split].
  - intros kind dat_file Hfiles. unfold convert_module_to_osis.
    rewrite Hconf, Hdir.
    rewrite (read_sword_index_no_index decompress data kind dat_file Hfiles).
    reflexivity.
  - intros kind idx_data dat_data Hfiles Hnone.
    unfold convert_module_to_osis. rewrite Hconf, Hdir.
    rewrite (read_sword_index_found decompress idx_data dat_data data kind
               Hfiles).
    rewrite Hnone. reflexivity.
  - intros before after. apply main_results.
Qed.

(** C5 on the sample module, once without index and once with an empty
    index. *)
Lemma C5_no_index_writes_placeholder_witness :
  conf_files (sample_module no_index)
  = [Some [(lit "MHC", Some (lit "./modules/x/"))]]
  /\ subdir (sample_module no_index) (strip (lit "./modules/x/") (lit "./"))
     = Some no_index
  /\ convert_module_to_osis Zlib.decompress (sample_module no_index)
     = {| returned := true;
          output := Some (osis_header ++ osis_footer);
          printed :=
            [Converting; ModuleAndDataPath (lit "MHC") (lit "modules/x");
             IndexFileNotFound; NoEntriesPlaceholder; Created;
             BasicExportNote] |}.
Proof.
  split; [reflexivity|]. split; [reflexivity|].
  destruct (C5_no_index_writes_placeholder Zlib.decompress
              (sample_module no_index) (lit "MHC")
              (Some (lit "./modules/x/")) [] [] no_index eq_refl eq_refl)
    as [Hnone _].
  exact (Hnone Uncompressed None eq_refl).
Defined.

(** C5 as stated fails: a module without index file is not given up.  Its
    conversion returns success and writes the minimal document, exactly
    as for a module with an empty index, and the batch counts it as
    converted. *)
Lemma C5_counterexample :
  index_files no_index = (Uncompressed, None, None)
  /\ returned (convert_module_to_osis Zlib.decompress (sample_module no_index))
     <> false
  /\ output (convert_module_to_osis Zlib.decompress (sample_module no_index))
     = Some (osis_header ++ osis_footer)
  /\ output (convert_module_to_osis Zlib.decompress (sample_module no_index))
     = output (convert_module_to_osis Zlib.decompress
                 (sample_module (compressed_module [] [])))
  /\ returned (convert_module_to_osis Zlib.decompress (sample_module no_index))
     = returned (convert_module_to_osis Zlib.decompress
                   (sample_module (compressed_module [] [])))
  /\ fst (main Zlib.decompress [sample_module no_index]) = 1.
Proof.
  split; [reflexivity|].
  split; [vm_compute; discriminate|].
  repeat split; vm_compute; reflexivity.
Qed.

(** ** Decoding the payload *)

(** With the [Ignore] handler the decoder returns the characters it finds
    and nothing for the error ranges. *)
Lemma decode_ignore_events (skip : nat) (bs : list Z) :
  decode_from Ignore skip bs = Some (errors_dropped (utf8_events skip bs)).
Proof.
  revert skip. induction bs as [|b bs IH]; intros skip.
  - reflexivity.
  - cbn [decode_from utf8_events]. destruct skip as [|k]; [|apply IH].
    destruct (utf8_step (b :: bs)) as [cp n|n|].
    + rewrite IH. reflexivity.
    + rewrite IH. reflexivity.
    + reflexivity.
Qed.

(** With the [Replace] handler it returns U+FFFD for each error range. *)
Lemma decode_replace_events (skip : nat) (bs : list Z) :
  decode_from Replace skip bs = Some (errors_replaced (utf8_events skip bs)).
Proof.
  revert skip. induction bs as [|b bs IH]; intros skip.
  - reflexivity.
  - cbn [decode_from utf8_events]. destruct skip as [|k]; [|apply IH].
    destruct (utf8_step (b :: bs)) as [cp n|n|].
    + rewrite IH. reflexivity.
    + rewrite IH. reflexivity.
    + reflexivity.
Qed.

(** No more characters come out than bytes went in. *)
Lemma errors_dropped_length (skip : nat) (bs : list Z) :
  (length (errors_dropped (utf8_events skip bs)) <= length bs)%nat.
Proof.
  revert skip. induction bs as [|b bs IH]; intros skip.
  - simpl. lia.
  - cbn [utf8_events]. destruct skip as [|k].
    + destruct (utf8_step (b :: bs)) as [cp n|n|].
      * specialize (IH (pred n)). simpl in *. lia.
      * specialize (IH (pred n)). simpl in *. lia.
      * simpl. lia.
    + specialize (IH k). simpl. lia.
Qed.

(** Text made of ASCII bytes is decoded as it is. *)
Lemma decode_ascii (data : bytes) :
  Forall (fun b => byte_val b < 128) data ->
  decode_utf8 Ignore data = Some (map byte_val data).
Proof.
  unfold decode_utf8. induction 1 as [|b data Hb _ IH]; [reflexivity|].
  cbn [map decode_from]. unfold utf8_step.
  destruct (Z.ltb_spec (byte_val b) 128); [|lia].
  simpl pred. rewrite IH. reflexivity.
Qed.

(** C9, as the reader does it: once a payload is decompressed, decoding it
    never raises, so a slot that is not empty and whose payload
    decompresses always gets its entry; the bytes that are not UTF-8 are
    dropped, where the [Replace] handler would put U+FFFD. *)
Theorem C9_decode_never_fails (decompress : bytes -> option bytes)
    (idx_data dat_data raw : bytes) (i offset size comp_size : Z)
    (entries : dict str) :
  unpacked idx_data i = Some (offset, size, comp_size) ->
  0 < offset -> 0 < size ->
  decompress (seek_read dat_data offset comp_size) = Some raw ->
  exists text,
    decode_utf8 Ignore raw = Some text
    /\ text = errors_dropped (utf8_events O (map byte_val raw))
    /\ decode_utf8 Replace raw
       = Some (errors_replaced (utf8_events O (map byte_val raw)))
    /\ len text <= len raw
    /\ read_slot decompress idx_data dat_data i entries
       = Some (dict_set entries i (slice_to text 200))
    /\ classify decompress dat_data (unpacked idx_data i) = DecodedSlot.
Proof.
  intros Hrec Ho Hs Hraw.
  exists (errors_dropped (utf8_events O (map byte_val raw))).
  assert (Hdec : decode_utf8 Ignore raw
                 = Some (errors_dropped (utf8_events O (map byte_val raw))))
    by apply decode_ignore_events.
  assert (Htext : decompress_text decompress
                    (seek_read dat_data offset comp_size)
                  = Some (errors_dropped (utf8_events O (map byte_val raw)))).
  { unfold decompress_text. rewrite Hraw. exact Hdec. }
  split; [exact Hdec|]. split; [reflexivity|].
  split; [apply decode_replace_events|].
  split.
  { pose proof (errors_dropped_length O (map byte_val raw)) as Hlen.
    rewrite length_map in Hlen. unfold len. lia. }
  split.
  - unfold read_slot. fold (unpacked idx_data i). rewrite Hrec.
    assert (Eo : (offset >? 0) = true) by (apply Z.gtb_lt; lia).
    assert (Es : (size >? 0) = true) by (apply Z.gtb_lt; lia).
    rewrite Eo, Es. simpl andb. cbv iota. rewrite Htext. reflexivity.
  - rewrite Hrec. unfold classify.
    destruct (Z.eqb_spec offset 0); [lia|].
    destruct (Z.eqb_spec size 0); [lia|].
    simpl orb. cbv iota. rewrite Htext. reflexivity.
Qed.

(** C9 on a payload whose middle byte is not UTF-8: the entry is "AB". *)
Lemma C9_decode_never_fails_witness :
  unpacked bad_utf8_idx 0 = Some (1, 3, 11)
  /\ Zlib.decompress (seek_read bad_utf8_dat 1 11) = Some (bytes_of [65; 255; 66])
  /\ read_slot Zlib.decompress bad_utf8_idx bad_utf8_dat 0 []
     = Some [(0, [65; 66])].
Proof.
  assert (Hrec : unpacked bad_utf8_idx 0 = Some (1, 3, 11))
    by (vm_compute; reflexivity).
  assert (Hraw : Zlib.decompress (seek_read bad_utf8_dat 1 11)
                 = Some (bytes_of [65; 255; 66])) by (vm_compute; reflexivity).
  split; [exact Hrec|]. split; [exact Hraw|].
  destruct (C9_decode_never_fails Zlib.decompress bad_utf8_idx bad_utf8_dat
              (bytes_of [65; 255; 66]) 0 1 3 11 [] Hrec eq_refl eq_refl Hraw)
    as [text [_ [Htext [_ [_ [Hslot _]]]]]].
  rewrite Hslot, Htext. vm_compute. reflexivity.
Defined.

(** C9 as stated fails: a byte that is not UTF-8 is not replaced.  The
    payload [41 FF 42] is read as "AB"; with replacement it would be "A",
    U+FFFD, "B". *)
Lemma C9_counterexample :
  Zlib.decompress (bytes_of bad_utf8_z) = Some (bytes_of [65; 255; 66])
  /\ decompress_text Zlib.decompress (bytes_of bad_utf8_z) = Some [65; 66]
  /\ decode_utf8 Replace (bytes_of [65; 255; 66]) = Some [65; 65533; 66]
  /\ decompress_text Zlib.decompress (bytes_of bad_utf8_z)
     <> decode_utf8 Replace (bytes_of [65; 255; 66]).
Proof.
  split; [vm_compute; reflexivity|].
  split; [vm_compute; reflexivity|].
  split; [vm_compute; reflexivity|].
  vm_compute. discriminate.
Qed.

(** ** The decoded text can always be written *)

(** Side conditions on bit fields, with the powers of two computed. *)
Ltac pow2_bounds :=
  try change (2 ^ 6) with 64; try change (2 ^ 12) with 4096;
  try change (2 ^ 18) with 262144; lia.

(** Bits that do not overlap add up. *)
Lemma lor_shiftl_add (a b k : Z) :
  0 <= k -> 0 <= b < 2 ^ k -> Z.lor (Z.shiftl a k) b = a * 2 ^ k + b.
Proof.
  intros Hk Hb. rewrite <- Z.shiftl_mul_pow2 by assumption.
  rewrite <- Z.add_lor_land.
  assert (Hland : Z.land (Z.shiftl a k) b = 0).
  { apply Z.bits_inj'. intros n Hn. rewrite Z.land_spec, Z.bits_0.
    destruct (Z.lt_ge_cases n k) as [Hlt|Hge].
    - rewrite Z.shiftl_spec_low by assumption. reflexivity.
    - assert (Hbit : Z.testbit b n = false).
      { destruct (Z.eq_dec b 0) as [->|Hnz]; [apply Z.bits_0|].
        apply Z.bits_above_log2; [lia|].
        apply Z.lt_le_trans with k; [|assumption].
        apply Z.log2_lt_pow2; lia. }
      rewrite Hbit. apply andb_false_r. }
  rewrite Hland. lia.
Qed.

Lemma low_bits (c : Z) (n : Z) : 0 <= n -> Z.land c (2 ^ n - 1) = c mod 2 ^ n.
Proof.
  intros Hn. rewrite <- Z.land_ones by assumption.
  rewrite Z.ones_equiv. reflexivity.
Qed.

Lemma is_continuation_range (c : Z) :
  is_continuation c = true -> 128 <= c < 192.
Proof. unfold is_continuation. lia. Qed.

Lemma continuation_bits (c : Z) :
  is_continuation c = true -> Z.land c 63 = c - 128.
Proof.
  intros Hc. apply is_continuation_range in Hc.
  change 63 with (2 ^ 6 - 1). rewrite low_bits by lia.
  change (2 ^ 6) with 64. symmetry. apply (Z.mod_unique_pos c 64 2). lia. lia.
Qed.

Lemma two_bytes (ch c2 : Z) :
  194 <= ch < 224 -> is_continuation c2 = true ->
  scalar_value (Z.lor (Z.shiftl (Z.land ch 31) 6) (Z.land c2 63)) = true.
Proof.
  intros Hch Hc2. rewrite (continuation_bits c2 Hc2).
  apply is_continuation_range in Hc2.
  assert (Hlead : Z.land ch 31 = ch - 192).
  { change 31 with (2 ^ 5 - 1). rewrite low_bits by lia.
    change (2 ^ 5) with 32.
    symmetry. apply (Z.mod_unique_pos ch 32 6); lia. }
  rewrite Hlead, lor_shiftl_add by pow2_bounds.
  unfold scalar_value. change (2 ^ 6) with 64. lia.
Qed.

Lemma three_bytes (ch c2 c3 : Z) :
  224 <= ch < 240 -> is_continuation c2 = true ->
  (if c2 <? 160 then ch =? 224 else ch =? 237) = false ->
  is_continuation c3 = true ->
  scalar_value (Z.lor (Z.shiftl (Z.land ch 15) 12)
                  (Z.lor (Z.shiftl (Z.land c2 63) 6) (Z.land c3 63))) = true.
Proof.
  intros Hch Hc2 Hbad Hc3.
  rewrite (continuation_bits c2 Hc2), (continuation_bits c3 Hc3).
  apply is_continuation_range in Hc2. apply is_continuation_range in Hc3.
  assert (Hlead : Z.land ch 15 = ch - 224).
  { change 15 with (2 ^ 4 - 1). rewrite low_bits by lia.
    change (2 ^ 4) with 16.
    symmetry. apply (Z.mod_unique_pos ch 16 14); lia. }
  rewrite Hlead.
  rewrite (lor_shiftl_add (c2 - 128) (c3 - 128) 6) by pow2_bounds.
  rewrite lor_shiftl_add by pow2_bounds.
  change (2 ^ 6) with 64. change (2 ^ 12) with 4096.
  unfold scalar_value.
  destruct (Z.ltb_spec c2 160); lia.
Qed.

Lemma four_bytes (ch c2 c3 c4 : Z) :
  240 <= ch < 245 -> is_continuation c2 = true ->
  (if c2 <? 144 then ch =? 240 else ch =? 244) = false ->
  is_continuation c3 = true -> is_continuation c4 = true ->
  scalar_value (Z.lor (Z.shiftl (Z.land ch 7) 18)
                  (Z.lor (Z.shiftl (Z.land c2 63) 12)
                     (Z.lor (Z.shiftl (Z.land c3 63) 6) (Z.land c4 63))))
  = true.
Proof.
  intros Hch Hc2 Hbad Hc3 Hc4.
  rewrite (continuation_bits c2 Hc2), (continuation_bits c3 Hc3),
    (continuation_bits c4 Hc4).
  apply is_continuation_range in Hc2. apply is_continuation_range in Hc3.
  apply is_continuation_range in Hc4.
  assert (Hlead : Z.land ch 7 = ch - 240).
  { change 7 with (2 ^ 3 - 1). rewrite low_bits by lia.
    change (2 ^ 3) with 8.
    symmetry. apply (Z.mod_unique_pos ch 8 30); lia. }
  rewrite Hlead.
  rewrite (lor_shiftl_add (c3 - 128) (c4 - 128) 6) by pow2_bounds.
  rewrite (lor_shiftl_add (c2 - 128) _ 12) by pow2_bounds.
  rewrite lor_shiftl_add by pow2_bounds.
  change (2 ^ 6) with 64. change (2 ^ 12) with 4096.
  change (2 ^ 18) with 262144.
  unfold scalar_value.
  destruct (Z.ltb_spec c2 144); lia.
Qed.

(** What the decoder accepts at the head of its input is a code point
    UTF-8 can encode. *)
Lemma utf8_step_scalar (bs : list Z) (cp : Z) (n : nat) :
  Forall (fun b => 0 <= b) bs ->
  utf8_step bs = Decoded cp n -> scalar_value cp = true.
Proof.
  intros Hbs. unfold utf8_step.
  destruct bs as [|ch r]; [discriminate|].
  assert (Hch : 0 <= ch) by (inversion Hbs; assumption).
  destruct (Z.ltb_spec ch 128).
  { intros Heq. injection Heq as <- _. unfold scalar_value.
    destruct (Z.leb_spec 0 ch); [|lia].
    destruct (Z.ltb_spec ch 55296); [reflexivity | lia]. }
  destruct (Z.ltb_spec ch 194); [discriminate|].
  destruct (Z.ltb_spec ch 224).
  { destruct r as [|c2 r2]; [discriminate|].
    destruct (is_continuation c2) eqn:E2; [|discriminate].
    intros Heq. injection Heq as <- _. apply two_bytes; [lia | assumption]. }
  destruct (Z.ltb_spec ch 240).
  { destruct r as [|c2 r2]; [discriminate|].
    destruct (is_continuation c2) eqn:E2; [|discriminate].
    simpl negb. simpl orb.
    destruct (if c2 <? 160 then ch =? 224 else ch =? 237) eqn:Ebad;
      [discriminate|].
    destruct r2 as [|c3 r3]; [discriminate|].
    destruct (is_continuation c3) eqn:E3; [|discriminate].
    intros Heq. injection Heq as <- _.
    apply three_bytes; (assumption || lia). }
  destruct (Z.ltb_spec ch 245); [|discriminate].
  destruct r as [|c2 r2]; [discriminate|].
  destruct (is_continuation c2) eqn:E2; [|discriminate].
  simpl negb. simpl orb.
  destruct (if c2 <? 144 then ch =? 240 else ch =? 244) eqn:Ebad;
    [discriminate|].
  destruct r2 as [|c3 r3]; [discriminate|].
  destruct (is_continuation c3) eqn:E3; [|discriminate].
  simpl negb. cbv iota.
  destruct r3 as [|c4 r4]; [discriminate|].
  destruct (is_continuation c4) eqn:E4; [|discriminate].
  intros Heq. injection Heq as <- _.
  apply four_bytes; (assumption || lia).
Qed.

Lemma utf8_events_scalar (skip : nat) (bs : list Z) :
  Forall (fun b => 0 <= b) bs ->
  encodable (errors_dropped (utf8_events skip bs)) = true.
Proof.
  intros Hbs. revert skip.
  induction Hbs as [|b bs Hb Hbs IH]; intros skip; [reflexivity|].
  cbn [utf8_events]. destruct skip as [|k]; [|apply IH].
  destruct (utf8_step (b :: bs)) as [cp n|n|] eqn:Estep.
  - simpl. rewrite (utf8_step_scalar (b :: bs) cp n); [|constructor|];
      try assumption.
    apply IH.
  - simpl. apply IH.
  - reflexivity.
Qed.

(** The text decoded from a payload holds no surrogate. *)
Lemma decompress_text_encodable (decompress : bytes -> option bytes)
    (compressed : bytes) (text : str) :
  decompress_text decompress compressed = Some text ->
  encodable text = true.
Proof.
  unfold decompress_text, decode_utf8.
  destruct (decompress compressed) as [raw|]; [|discriminate].
  rewrite decode_ignore_events. intros Heq. injection Heq as <-.
  apply utf8_events_scalar. apply Forall_forall.
  intros b Hb. apply in_map_iff in Hb. destruct Hb as [x [<- _]].
  apply byte_val_range.
Qed.

Lemma encodable_firstn (n : nat) (s : str) :
  encodable s = true -> encodable (firstn n s) = true.
Proof.
  unfold encodable. revert s.
  induction n as [|n IH]; intros [|c s] Hs; try reflexivity.
  cbn [firstn forallb] in *. apply andb_true_iff in Hs.
  destruct Hs as [Hc Hs]. rewrite Hc. apply IH. exact Hs.
Qed.

(** The entries read from an index have slot numbers from 0 to 99 and
    texts that can be written, at most 200 characters long. *)
Lemma decoded_entries_sound (decompress : bytes -> option bytes)
    (idx_data dat_data : bytes) :
  Forall (fun item => 0 <= fst item < 100
                      /\ encodable (snd item) = true
                      /\ len (snd item) <= 200)
    (decoded_entries decompress idx_data dat_data).
Proof.
  apply Forall_forall. intros [j text] Hin. simpl fst. simpl snd.
  apply in_decoded_entries in Hin. destruct Hin as [Hj Hentry].
  apply in_sampled_slots in Hj. split; [lia|].
  unfold slot_entry in Hentry.
  destruct (unpacked idx_data j) as [[[o z] c]|]; [|discriminate].
  destruct ((o =? 0) || (z =? 0)); [discriminate|].
  destruct (decompress_text decompress _) as [t|] eqn:Et; [|discriminate].
  injection Hentry as <-. rewrite slice_to_firstn by lia. split.
  - apply encodable_firstn.
    apply (decompress_text_encodable decompress _ _ Et).
  - unfold len. rewrite length_firstn. lia.
Qed.

(** ** The whole conversion *)

(** The document written for the entries read from an index: the first
    50 entries, one line each. *)
Lemma write_osis_decoded (decompress : bytes -> option bytes)
    (idx_data dat_data : bytes) :
  write_osis (decoded_entries decompress idx_data dat_data)
  = (osis_header
       ++ map osis_line
            (firstn 50 (decoded_entries decompress idx_data dat_data))
       ++ osis_footer,
     true).
Proof.
  pose proof (decoded_entries_sound decompress idx_data dat_data) as Hsound.
  rewrite Forall_forall in Hsound.
  assert (Hfirst : forall item,
             In item (firstn 50 (decoded_entries decompress idx_data dat_data))
             -> In item (decoded_entries decompress idx_data dat_data)).
  { intros item Hin.
    rewrite <- (firstn_skipn 50 (decoded_entries decompress idx_data dat_data)).
    apply in_or_app. left. exact Hin. }
  unfold write_osis. rewrite slice_to_firstn by lia.
  change (Z.to_nat 50) with 50%nat.
  rewrite write_entries_elements.
  - rewrite flat_map_osis_element_inside.
    + rewrite app_assoc. reflexivity.
    + apply Forall_forall. intros item Hin.
      destruct (Hsound item (Hfirst item Hin)) as [Hkey _].
      rewrite capacity_value. lia.
  - apply Forall_forall. intros item Hin.
    destruct (Hsound item (Hfirst item Hin)) as [Hkey [Henc _]].
    split; [lia | exact Henc].
Qed.

(** A module with its configuration, its data directory, an index file
    and a data file is always converted: the document holds a line for
    each of the first 50 entries read. *)
Lemma convert_module_found (decompress : bytes -> option bytes)
    (m : module_dir) (name : str) (value : option str)
    (sections : conf_file) (files : list (option conf_file))
    (data : data_dir) (kind : index_kind) (idx_data dat_data : bytes) :
  conf_files m = Some ((name, value) :: sections) :: files ->
  subdir m (strip (match value with Some v => v | None => [] end) (lit "./"))
  = Some data ->
  index_files data = (kind, Some idx_data, Some dat_data) ->
  returned (convert_module_to_osis decompress m) = true
  /\ output (convert_module_to_osis decompress m)
     = Some (osis_header
               ++ map osis_line
                    (firstn 50 (decoded_entries decompress idx_data dat_data))
               ++ osis_footer).
Proof.
  intros Hconf Hdir Hfiles. unfold convert_module_to_osis.
  rewrite Hconf, Hdir.
  rewrite (read_sword_index_found decompress idx_data dat_data data kind
             Hfiles).
  rewrite write_osis_decoded. split; reflexivity.
Qed.

(** The index of two records, an empty slot and "Hello": one entry, for
    slot 1, written as Genesis 1:2. *)
Example hello_module :
  read_sword_index Zlib.decompress (compressed_module sample_idx sample_dat)
  = ([(1, lit "Hello")],
     [ReadingIndex Compressed; ReadingData Compressed;
      FoundIndexEntries 2; SuccessfullyRead 1])
  /\ slot_counts Zlib.decompress sample_idx sample_dat = (2, 1, 0)
  /\ output (convert_module_to_osis Zlib.decompress
               (sample_module (compressed_module sample_idx sample_dat)))
     = Some (osis_header
               ++ [lit "    <verse osisID=" ++ dquote ++ lit "Gen.1.2"
                     ++ dquote ++ lit ">Hello</verse>" ++ newline]
               ++ osis_footer).
Proof. repeat split; vm_compute; reflexivity. Qed.

(** An empty index buffer: no record, no entry, a document with no
    element, and success. *)
Example empty_index_module :
  read_sword_index Zlib.decompress (compressed_module [] sample_dat)
  = ([], [ReadingIndex Compressed; ReadingData Compressed;
          FoundIndexEntries 0; SuccessfullyRead 0])
  /\ convert_module_to_osis Zlib.decompress
       (sample_module (compressed_module [] sample_dat))
     = {| returned := true;
          output := Some (osis_header ++ osis_footer);
          printed :=
            [Converting; ModuleAndDataPath (lit "MHC") (lit "modules/x");
             ReadingIndex Compressed; ReadingData Compressed;
             FoundIndexEntries 0; SuccessfullyRead 0;
             NoEntriesPlaceholder; Created; BasicExportNote] |}.
Proof. split; vm_compute; reflexivity. Qed.

(** An index packs and unpacks: the record written at a slot is the
    record read there. *)
Example index_record_unpacked :
  unpacked (index_record 1 5 13 ++ index_record 4000000000 70000 258) 1
  = Some (4000000000, 70000, 258).
Proof. vm_compute. reflexivity. Qed.

(* ===================================================================== *)
(** * Further properties of the script *)
(* ===================================================================== *)

(** ** The entries the reader returns *)

Lemma slot_entry_length (decompress : bytes -> option bytes)
    (idx_data dat_data : bytes) (i : Z) :
  (length (slot_entry decompress idx_data dat_data i) <= 1)%nat.
Proof.
  unfold slot_entry.
  destruct (unpacked idx_data i) as [[[o z] c]|]; [|simpl; lia].
  destruct ((o =? 0) || (z =? 0)); [simpl; lia|].
  destruct (decompress_text decompress _); simpl; lia.
Qed.

Lemma flat_map_length_le {A B : Type} (f : A -> list B) (l : list A) :
  (forall a, (length (f a) <= 1)%nat) ->
  (length (flat_map f l) <= length l)%nat.
Proof.
  intros Hf. induction l as [|a l IH]; simpl; [lia|].
  rewrite length_app. specialize (Hf a). lia.
Qed.

Lemma decoded_entries_count (decompress : bytes -> option bytes)
    (idx_data dat_data : bytes) :
  len (decoded_entries decompress idx_data dat_data)
  <= Z.min (len idx_data / 12) 100.
Proof.
  rewrite <- sampled_slots_length. unfold decoded_entries, len.
  apply Nat2Z.inj_le. apply flat_map_length_le.
  intros i. apply slot_entry_length.
Qed.

(** The keys of the entries of consecutive slots go up. *)
Lemma slot_entries_sorted (decompress : bytes -> option bytes)
    (idx_data dat_data : bytes) (n a : nat) :
  StronglySorted Z.lt
    (dict_keys (flat_map (slot_entry decompress idx_data dat_data)
                  (map Z.of_nat (seq a n))))
  /\ Forall (fun k => Z.of_nat a <= k)
       (dict_keys (flat_map (slot_entry decompress idx_data dat_data)
                     (map Z.of_nat (seq a n)))).
Proof.
  revert a. induction n as [|n IH]; intros a.
  - simpl. split; constructor.
  - destruct (IH (S a)) as [Hsorted Hlow].
    simpl seq. simpl map. simpl flat_map. unfold dict_keys in *.
    rewrite map_app.
    assert (Hhead : map fst (slot_entry decompress idx_data dat_data
                               (Z.of_nat a)) = []
                    \/ map fst (slot_entry decompress idx_data dat_data
                                  (Z.of_nat a)) = [Z.of_nat a]).
    { unfold slot_entry.
      destruct (unpacked idx_data (Z.of_nat a)) as [[[o z] c]|]; [|left; reflexivity].
      destruct ((o =? 0) || (z =? 0)); [left; reflexivity|].
      destruct (decompress_text decompress _); [right|left]; reflexivity. }
    destruct Hhead as [-> | ->]; simpl app.
    + split; [exact Hsorted|].
      eapply Forall_impl; [|exact Hlow]. simpl. intros k Hk. lia.
    + split.
      * constructor; [exact Hsorted|].
        eapply Forall_impl; [|exact Hlow]. simpl. intros k Hk. lia.
      * constructor; [lia|].
        eapply Forall_impl; [|exact Hlow]. simpl. intros k Hk. lia.
Qed.

Lemma decoded_entries_sorted (decompress : bytes -> option bytes)
    (idx_data dat_data : bytes) :
  StronglySorted Z.lt
    (dict_keys (decoded_entries decompress idx_data dat_data)).
Proof.
  unfold decoded_entries, sampled_slots, range.
  apply slot_entries_sorted.
Qed.

(** What the reader returns, whatever the files: nothing, or the entries
    of the sampled slots. *)
Lemma read_sword_index_cases (decompress : bytes -> option bytes)
    (d : data_dir) :
  (fst (read_sword_index decompress d) = []
   /\ (snd (read_sword_index decompress d) = [IndexFileNotFound]
       \/ exists kind,
            snd (read_sword_index decompress d)
            = [ReadingIndex kind; ReadingData kind; ErrorReadingModule]))
  \/ exists kind idx_data dat_data,
       index_files d = (kind, Some idx_data, Some dat_data)
       /\ read_sword_index decompress d
          = (decoded_entries decompress idx_data dat_data,
             [ReadingIndex kind; ReadingData kind;
              FoundIndexEntries (len idx_data / 12);
              SuccessfullyRead
                (len (decoded_entries decompress idx_data dat_data))]).
Proof.
  destruct (index_files d) as [[kind idx_file] dat_file] eqn:Hfiles.
  destruct idx_file as [idx_data|].
  - destruct dat_file as [dat_data|].
    + right. exists kind, idx_data, dat_data. split; [reflexivity|].
      apply (read_sword_index_found decompress idx_data dat_data d kind Hfiles).
    + left. unfold read_sword_index. rewrite Hfiles. simpl.
      split; [reflexivity|]. right. exists kind. reflexivity.
  - left. unfold read_sword_index. rewrite Hfiles. simpl.
    split; [reflexivity|]. left. reflexivity.
Qed.

(** Whatever the files, the entries have slot numbers from 0 to 99 and
    texts of at most 200 characters that can be written. *)
Lemma read_entries_sound (decompress : bytes -> option bytes) (d : data_dir) :
  Forall (fun item => 0 <= fst item < 100
                      /\ len (snd item) <= 200
                      /\ encodable (snd item) = true)
    (fst (read_sword_index decompress d)).
Proof.
  destruct (read_sword_index_cases decompress d)
    as [[Hnone _] | [kind [idx_data [dat_data [_ Hread]]]]].
  - rewrite Hnone. constructor.
  - rewrite Hread. simpl fst.
    eapply Forall_impl; [|apply decoded_entries_sound].
    simpl. intros item [Hkey [Henc Hlen]]. tauto.
Qed.

(** X1: whatever the data directory holds, the entries returned by
    [read_sword_index] have strictly increasing slot numbers between 0 and
    99, texts of at most 200 characters without surrogates, and there are
    at most 100 of them; the count printed as read is their number, and it
    is at most the smaller of 100 and the count printed as found. *)
Theorem X1_entries_invariant (decompress : bytes -> option bytes)
    (d : data_dir) :
  StronglySorted Z.lt (dict_keys (fst (read_sword_index decompress d)))
  /\ Forall (fun item => 0 <= fst item < 100
                         /\ len (snd item) <= 200
                         /\ encodable (snd item) = true)
       (fst (read_sword_index decompress d))
  /\ len (fst (read_sword_index decompress d)) <= 100
  /\ Forall (fun msg =>
               match msg with
               | SuccessfullyRead m =>
                   m = len (fst (read_sword_index decompress d))
               | FoundIndexEntries n =>
                   len (fst (read_sword_index decompress d)) <= Z.min n 100
               | _ => True
               end)
       (snd (read_sword_index decompress d)).
Proof.
  destruct (read_sword_index_cases decompress d)
    as [[Hnone Hlog] | [kind [idx_data [dat_data [_ Hread]]]]].
  - rewrite Hnone. split; [constructor|]. split; [constructor|].
    split; [unfold len; simpl length; lia|].
    destruct Hlog as [-> | [kind ->]]; repeat constructor.
  - rewrite Hread. simpl fst. simpl snd.
    pose proof (decoded_entries_count decompress idx_data dat_data) as Hcount.
    split; [apply decoded_entries_sorted|].
    split.
    { eapply Forall_impl; [|apply decoded_entries_sound].
      simpl. intros item [Hkey [Henc Hlen]]. tauto. }
    split; [lia|].
    repeat constructor. exact Hcount.
Qed.

(** ** Which files are read *)

(** The conversion of a module whose configuration and data directory
    are found, in terms of what the reader returns. *)
Lemma write_osis_read (decompress : bytes -> option bytes) (d : data_dir) :
  write_osis (fst (read_sword_index decompress d))
  = (osis_header
       ++ map osis_line (firstn 50 (fst (read_sword_index decompress d)))
       ++ osis_footer,
     true).
Proof.
  destruct (read_sword_index_cases decompress d)
    as [[Hnone _] | [kind [idx_data [dat_data [_ Hread]]]]].
  - rewrite Hnone. reflexivity.
  - rewrite Hread. simpl fst. apply write_osis_decoded.
Qed.

Lemma convert_with_data (decompress : bytes -> option bytes)
    (m : module_dir) (name : str) (value : option str)
    (sections : conf_file) (files : list (option conf_file))
    (data : data_dir) :
  conf_files m = Some ((name, value) :: sections) :: files ->
  subdir m (data_path_of value) = Some data ->
  convert_module_to_osis decompress m
  = {| returned := true;
       output :=
         Some (osis_header
                 ++ map osis_line
                      (firstn 50 (fst (read_sword_index decompress data)))
                 ++ osis_footer);
       printed :=
         [Converting; ModuleAndDataPath name (data_path_of value)]
           ++ snd (read_sword_index decompress data)
           ++ match fst (read_sword_index decompress data) with
              | [] => [NoEntriesPlaceholder]
              | _ :: _ => []
              end
           ++ [Created; BasicExportNote] |}.
Proof.
  intros Hconf Hdir. unfold convert_module_to_osis. rewrite Hconf.
  fold (data_path_of value). rewrite Hdir.
  pose proof (write_osis_read decompress data) as Hwrite.
  destruct (read_sword_index decompress data) as [entries read_log].
  simpl fst in *. simpl snd. rewrite Hwrite.
  destruct entries; simpl; rewrite <- ?app_assoc; reflexivity.
Qed.

(** X2: when [mhc.zdx] exists the uncompressed pair plays no part: two
    data directories with the same [mhc.zdx] and [mhc.zdt] give the same
    entries and messages, whatever their [mhc.idx] and [mhc.dat]. *)
Theorem X2_compressed_pair_shadows (decompress : bytes -> option bytes)
    (d d' : data_dir) :
  mhc_zdx d <> None ->
  mhc_zdx d' = mhc_zdx d ->
  mhc_zdt d' = mhc_zdt d ->
  read_sword_index decompress d' = read_sword_index decompress d.
Proof.
  intros Hzdx Hsame_zdx Hsame_zdt.
  unfold read_sword_index, index_files. rewrite Hsame_zdx, Hsame_zdt.
  destruct (mhc_zdx d); [reflexivity | contradiction Hzdx; reflexivity].
Qed.

(** X2 on the sample index: adding an uncompressed pair changes
    nothing. *)
Lemma X2_compressed_pair_shadows_witness :
  mhc_zdx (compressed_module sample_idx sample_dat) <> None
  /\ read_sword_index Zlib.decompress
       {| mhc_zdx := Some sample_idx; mhc_zdt := Some sample_dat;
          mhc_idx := Some corrupt_idx; mhc_dat := Some bad_utf8_dat |}
     = read_sword_index Zlib.decompress
         (compressed_module sample_idx sample_dat).
Proof.
  assert (Hzdx : mhc_zdx (compressed_module sample_idx sample_dat) <> None)
    by discriminate.
  split; [exact Hzdx|].
  apply (X2_compressed_pair_shadows Zlib.decompress
           (compressed_module sample_idx sample_dat)
           {| mhc_zdx := Some sample_idx; mhc_zdt := Some sample_dat;
              mhc_idx := Some corrupt_idx; mhc_dat := Some bad_utf8_dat |}
           Hzdx eq_refl eq_refl).
Defined.

(** X3: without [mhc.zdx] the uncompressed pair is read exactly as the
    compressed pair would be, every payload still going through the
    decompressor: the entries are those of a compressed pair with the
    same bytes, and only the kind named in the messages differs; a stray
    [mhc.zdt] is not looked at. *)
Theorem X3_uncompressed_pair_read_alike (decompress : bytes -> option bytes)
    (idx_data dat_data : bytes) (stray : option bytes) :
  read_sword_index decompress
    {| mhc_zdx := None; mhc_zdt := stray;
       mhc_idx := Some idx_data; mhc_dat := Some dat_data |}
  = (decoded_entries decompress idx_data dat_data,
     [ReadingIndex Uncompressed; ReadingData Uncompressed;
      FoundIndexEntries (len idx_data / 12);
      SuccessfullyRead (len (decoded_entries decompress idx_data dat_data))])
  /\ fst (read_sword_index decompress
            {| mhc_zdx := None; mhc_zdt := stray;
               mhc_idx := Some idx_data; mhc_dat := Some dat_data |})
     = fst (read_sword_index decompress
              (compressed_module idx_data dat_data)).
Proof.
  assert (Hun : read_sword_index decompress
                  {| mhc_zdx := None; mhc_zdt := stray;
                     mhc_idx := Some idx_data; mhc_dat := Some dat_data |}
                = (decoded_entries decompress idx_data dat_data,
                   [ReadingIndex Uncompressed; ReadingData Uncompressed;
                    FoundIndexEntries (len idx_data / 12);
                    SuccessfullyRead
                      (len (decoded_entries decompress idx_data dat_data))])).
  { apply read_sword_index_found. reflexivity. }
  split; [exact Hun|]. rewrite Hun.
  rewrite (read_sword_index_found decompress idx_data dat_data
             (compressed_module idx_data dat_data) Compressed eq_refl).
  reflexivity.
Qed.

(** X4: when the index file is there and the data file that goes with it
    is not, the reader gives up with an error message and no entry; it
    does not fall back on the other pair.  The conversion goes on all the
    same: it writes the document without elements and returns success. *)
Theorem X4_missing_data_file (decompress : bytes -> option bytes)
    (m : module_dir) (name : str) (value : option str)
    (sections : conf_file) (files : list (option conf_file))
    (data : data_dir) (kind : index_kind) (idx_data : bytes) :
  conf_files m = Some ((name, value) :: sections) :: files ->
  subdir m (data_path_of value) = Some data ->
  index_files data = (kind, Some idx_data, None) ->
  read_sword_index decompress data
  = ([], [ReadingIndex kind; ReadingData kind; ErrorReadingModule])
  /\ convert_module_to_osis decompress m
     = {| returned := true;
          output := Some (osis_header ++ osis_footer);
          printed :=
            [Converting; ModuleAndDataPath name (data_path_of value);
             ReadingIndex kind; ReadingData kind; ErrorReadingModule;
             NoEntriesPlaceholder; Created; BasicExportNote] |}.
Proof.
  intros Hconf Hdir Hfiles.
  assert (Hread : read_sword_index decompress data
                  = ([], [ReadingIndex kind; ReadingData kind;
                          ErrorReadingModule])).
  { unfold read_sword_index. rewrite Hfiles. reflexivity. }
  split; [exact Hread|].
  rewrite (convert_with_data decompress m name value sections files data
             Hconf Hdir).
  rewrite Hread. reflexivity.
Qed.

(** X4 on a data directory with [mhc.zdx], no [mhc.zdt], and a whole
    uncompressed pair. *)
Lemma X4_missing_data_file_witness :
  index_files {| mhc_zdx := Some sample_idx; mhc_zdt := None;
                 mhc_idx := Some sample_idx; mhc_dat := Some sample_dat |}
  = (Compressed, Some sample_idx, None)
  /\ returned (convert_module_to_osis Zlib.decompress
                 (sample_module
                    {| mhc_zdx := Some sample_idx; mhc_zdt := None;
                       mhc_idx := Some sample_idx;
                       mhc_dat := Some sample_dat |})) = true
  /\ output (convert_module_to_osis Zlib.decompress
                (sample_module
                   {| mhc_zdx := Some sample_idx; mhc_zdt := None;
                      mhc_idx := Some sample_idx;
                      mhc_dat := Some sample_dat |}))
     = Some (osis_header ++ osis_footer).
Proof.
  split; [reflexivity|].
  destruct (X4_missing_data_file Zlib.decompress
              (sample_module
                 {| mhc_zdx := Some sample_idx; mhc_zdt := None;
                    mhc_idx := Some sample_idx; mhc_dat := Some sample_dat |})
              (lit "MHC") (Some (lit "./modules/x/")) [] []
              _ Compressed sample_idx eq_refl eq_refl eq_refl)
    as [_ Hconv].
  rewrite Hconv. split; reflexivity.
Defined.

(** ** What the entries depend on *)

Lemma flat_map_ext_in {A B : Type} (f g : A -> list B) (l : list A) :
  (forall a, In a l -> f a = g a) -> flat_map f l = flat_map g l.
Proof.
  intros Hfg. induction l as [|a l IH]; [reflexivity|].
  simpl. rewrite (Hfg a) by (left; reflexivity).
  rewrite IH; [reflexivity|]. intros b Hb. apply Hfg. right. exact Hb.
Qed.

(** The first 1200 bytes of an index hold its first 100 blocks. *)
Lemma sampled_prefix (idx_data : bytes) :
  sampled_slots (firstn 1200 idx_data) = sampled_slots idx_data
  /\ forall i, In i (sampled_slots idx_data) ->
               unpacked (firstn 1200 idx_data) i = unpacked idx_data i.
Proof.
  destruct (Nat.le_gt_cases (length idx_data) 1200) as [Hshort|Hlong].
  - rewrite firstn_all2 by assumption. split; [reflexivity|]. reflexivity.
  - assert (Hlen : len (firstn 1200 idx_data) = 1200).
    { unfold len. rewrite firstn_length_le by lia. reflexivity. }
    assert (Hn : 100 <= len idx_data / 12).
    { apply Z.div_le_lower_bound; unfold len; lia. }
    assert (Hslots : sampled_slots (firstn 1200 idx_data)
                     = sampled_slots idx_data).
    { unfold sampled_slots. rewrite Hlen.
      change (1200 / 12) with 100. rewrite Z.min_id, Z.min_r by lia.
      reflexivity. }
    split; [exact Hslots|].
    intros i Hi. apply in_sampled_slots in Hi.
    rewrite !unpacked_block by (rewrite ?Hlen; change (1200 / 12) with 100; lia).
    unfold block_fields.
    rewrite !slice_prefix by lia. reflexivity.
Qed.

(** X5: the entries depend on the first 1200 bytes of the index only:
    cutting the index after its first 100 blocks changes no entry (the
    count of entries found that is printed is the only thing that
    changes). *)
Theorem X5_index_prefix (decompress : bytes -> option bytes)
    (idx_data dat_data : bytes) :
  fst (read_sword_index decompress
         (compressed_module (firstn 1200 idx_data) dat_data))
  = fst (read_sword_index decompress (compressed_module idx_data dat_data))
  /\ decoded_entries decompress (firstn 1200 idx_data) dat_data
     = decoded_entries decompress idx_data dat_data.
Proof.
  assert (Heq : decoded_entries decompress (firstn 1200 idx_data) dat_data
                = decoded_entries decompress idx_data dat_data).
  { destruct (sampled_prefix idx_data) as [Hslots Hrec].
    unfold decoded_entries. rewrite Hslots.
    apply flat_map_ext_in. intros i Hi. unfold slot_entry.
    rewrite (Hrec i Hi). reflexivity. }
  split; [|exact Heq].
  rewrite (read_sword_index_found decompress (firstn 1200 idx_data) dat_data
             (compressed_module (firstn 1200 idx_data) dat_data) Compressed
             eq_refl).
  rewrite (read_sword_index_found decompress idx_data dat_data
             (compressed_module idx_data dat_data) Compressed eq_refl).
  simpl fst. exact Heq.
Qed.

(** Reading inside a file does not see what is appended to it. *)
Lemma seek_read_app (data extra : bytes) (pos n : Z) :
  0 <= pos -> 0 <= n -> pos + n <= len data ->
  seek_read (data ++ extra) pos n = seek_read data pos n.
Proof.
  intros Hpos Hn Hend. unfold seek_read, len in *.
  destruct (Z.ltb_spec n 0); [lia|].
  rewrite skipn_app, firstn_app, length_skipn.
  replace (Z.to_nat n - (length data - Z.to_nat pos))%nat with 0%nat by lia.
  simpl firstn. apply app_nil_r.
Qed.

(** X6: bytes appended to the data file beyond every payload the index
    refers to change nothing: when each sampled record is empty or has
    its [comp_size] bytes from [offset] inside the data file, the reader
    returns and prints the same for the longer file. *)
Theorem X6_data_file_frame (decompress : bytes -> option bytes)
    (idx_data dat_data extra : bytes) :
  (forall i offset size comp_size,
      In i (sampled_slots idx_data) ->
      unpacked idx_data i = Some (offset, size, comp_size) ->
      offset = 0 \/ size = 0 \/ offset + comp_size <= len dat_data) ->
  read_sword_index decompress (compressed_module idx_data (dat_data ++ extra))
  = read_sword_index decompress (compressed_module idx_data dat_data).
Proof.
  intros Hinside.
  rewrite (read_sword_index_found decompress idx_data (dat_data ++ extra)
             (compressed_module idx_data (dat_data ++ extra)) Compressed
             eq_refl).
  rewrite (read_sword_index_found decompress idx_data dat_data
             (compressed_module idx_data dat_data) Compressed eq_refl).
  assert (Heq : decoded_entries decompress idx_data (dat_data ++ extra)
                = decoded_entries decompress idx_data dat_data).
  { unfold decoded_entries. apply flat_map_ext_in. intros i Hi.
    unfold slot_entry.
    destruct (unpacked idx_data i) as [[[o z] c]|] eqn:Hrec; [|reflexivity].
    assert (Hu : u32_fields (o, z, c)).
    { apply in_sampled_slots in Hi.
      assert (Hfields : (o, z, c) = block_fields idx_data i).
      { pose proof (unpacked_block idx_data i) as Hblock.
        rewrite Hrec in Hblock.
        assert (Hsome : Some (o, z, c) = Some (block_fields idx_data i))
          by (apply Hblock; lia).
        congruence. }
      rewrite Hfields. apply block_fields_u32. lia. }
    destruct Hu as [Ho [Hz Hc]].
    destruct (Hinside i o z c Hi Hrec) as [-> | [-> | Hend]].
    - reflexivity.
    - rewrite orb_true_r. reflexivity.
    - rewrite seek_read_app by lia. reflexivity. }
  rewrite Heq. reflexivity.
Qed.

(** X6 on the sample index, with two bytes appended to the data file. *)
Lemma X6_data_file_frame_witness :
  read_sword_index Zlib.decompress
    (compressed_module sample_idx (sample_dat ++ [x78; x9c]))
  = read_sword_index Zlib.decompress (compressed_module sample_idx sample_dat).
Proof.
  apply (X6_data_file_frame Zlib.decompress sample_idx sample_dat [x78; x9c]).
  intros i offset size comp_size Hi Hrec.
  apply in_sampled_slots in Hi.
  change (len sample_idx / 12) with 2 in Hi.
  assert (Hcase : i = 0 \/ i = 1) by lia.
  destruct Hcase as [-> | ->]; vm_compute in Hrec;
    injection Hrec as <- <- <-.
  - left. reflexivity.
  - right. right. vm_compute. discriminate.
Defined.

(** ** When the conversion succeeds, and what it writes *)

Lemma returned_found (decompress : bytes -> option bytes) (m : module_dir) :
  returned (convert_module_to_osis decompress m) = module_found m.
Proof.
  unfold module_found.
  destruct (conf_files m) as [|[[|[name value] sections]|] files] eqn:Hconf;
    try (unfold convert_module_to_osis; rewrite Hconf; reflexivity).
  destruct (subdir m (data_path_of value)) as [data|] eqn:Hdir.
  - rewrite (convert_with_data decompress m name value sections files data
               Hconf Hdir). reflexivity.
  - unfold convert_module_to_osis. rewrite Hconf.
    fold (data_path_of value). rewrite Hdir. reflexivity.
Qed.

(** X7: the conversion returns success exactly when the first
    configuration file parses with a section and the data directory it
    names exists; nothing in the index or the data file can make it fail.
    Without that no output file is opened; with it the document is the
    header, at most 50 lines, and the footer. *)
Theorem X7_conversion_success (decompress : bytes -> option bytes)
    (m : module_dir) :
  returned (convert_module_to_osis decompress m) = module_found m
  /\ (if module_found m
      then exists lines,
             output (convert_module_to_osis decompress m)
             = Some (osis_header ++ lines ++ osis_footer)
             /\ len lines <= 50
      else output (convert_module_to_osis decompress m) = None).
Proof.
  unfold module_found.
  destruct (conf_files m) as [|[[|[name value] sections]|] files] eqn:Hconf;
    try (unfold convert_module_to_osis; rewrite Hconf; split; reflexivity).
  destruct (subdir m (data_path_of value)) as [data|] eqn:Hdir.
  - rewrite (convert_with_data decompress m name value sections files data
               Hconf Hdir).
    split; [reflexivity|].
    exists (map osis_line (firstn 50 (fst (read_sword_index decompress data)))).
    split; [reflexivity|].
    unfold len. rewrite length_map, length_firstn. lia.
  - unfold convert_module_to_osis. rewrite Hconf.
    fold (data_path_of value). rewrite Hdir. split; reflexivity.
Qed.

(** An entry of one of the first 100 slots is guessed in the first
    chapter of Genesis. *)
Lemma osis_line_genesis (item : Z * str) :
  0 <= fst item < 100 -> osis_line item = genesis_line item.
Proof.
  destruct item as [i text]. simpl fst. intros Hi.
  unfold osis_line, genesis_line. simpl fst. simpl snd.
  rewrite (Z.div_small i 10000) by lia.
  rewrite (Z.mod_small i 10000) by lia.
  rewrite (Z.div_small i 200) by lia.
  rewrite (Z.mod_small i 200) by lia.
  reflexivity.
Qed.

(** X8: whatever the index holds, every element the conversion writes is
    a verse of Genesis, chapter 1: only the first 100 slots are read and a
    book spans 10000 slots, so the entry of slot [i] is written as
    [Gen.1.(i+1)].  The document holds one such line for each of the first
    50 entries, in slot order. *)
Theorem X8_always_genesis_one (decompress : bytes -> option bytes)
    (m : module_dir) (name : str) (value : option str)
    (sections : conf_file) (files : list (option conf_file))
    (data : data_dir) :
  conf_files m = Some ((name, value) :: sections) :: files ->
  subdir m (data_path_of value) = Some data ->
  output (convert_module_to_osis decompress m)
  = Some (osis_header
            ++ map genesis_line
                 (firstn 50 (fst (read_sword_index decompress data)))
            ++ osis_footer)
  /\ len (map genesis_line
            (firstn 50 (fst (read_sword_index decompress data))))
     = Z.min 50 (len (fst (read_sword_index decompress data))).
Proof.
  intros Hconf Hdir.
  rewrite (convert_with_data decompress m name value sections files data
             Hconf Hdir).
  cbn [output].
  assert (Hlines : map osis_line
                     (firstn 50 (fst (read_sword_index decompress data)))
                   = map genesis_line
                       (firstn 50 (fst (read_sword_index decompress data)))).
  { apply map_ext_in. intros item Hin. apply osis_line_genesis.
    assert (Hin' : In item (fst (read_sword_index decompress data))).
    { rewrite <- (firstn_skipn 50 (fst (read_sword_index decompress data))).
      apply in_or_app. left. exact Hin. }
    pose proof (read_entries_sound decompress data) as Hall.
    rewrite Forall_forall in Hall. destruct (Hall item Hin') as [Hkey _].
    exact Hkey. }
  rewrite Hlines. split; [reflexivity|].
  unfold len. rewrite length_map, length_firstn. lia.
Qed.

(** X8 on the sample module: the entry of slot 1 is written as
    Genesis 1:2. *)
Lemma X8_always_genesis_one_witness :
  output (convert_module_to_osis Zlib.decompress
            (sample_module (compressed_module sample_idx sample_dat)))
  = Some (osis_header ++ [genesis_line (1, lit "Hello")] ++ osis_footer).
Proof.
  destruct (X8_always_genesis_one Zlib.decompress
              (sample_module (compressed_module sample_idx sample_dat))
              (lit "MHC") (Some (lit "./modules/x/")) [] []
              (compressed_module sample_idx sample_dat) eq_refl eq_refl)
    as [Hout _].
  rewrite Hout. vm_compute. reflexivity.
Defined.

Lemma firstn_50_nil {A : Type} (l : list A) : firstn 50 l = [] -> l = [].
Proof. destruct l; [reflexivity | discriminate]. Qed.

(** X9: for a module whose configuration and data directory are found,
    the warning that a placeholder is generated is printed exactly when
    the reader returned no entry, and this is exactly when the document
    written has no element. *)
Theorem X9_placeholder_iff_no_element (decompress : bytes -> option bytes)
    (m : module_dir) (name : str) (value : option str)
    (sections : conf_file) (files : list (option conf_file))
    (data : data_dir) :
  conf_files m = Some ((name, value) :: sections) :: files ->
  subdir m (data_path_of value) = Some data ->
  (In NoEntriesPlaceholder (printed (convert_module_to_osis decompress m))
   <-> fst (read_sword_index decompress data) = [])
  /\ (output (convert_module_to_osis decompress m)
      = Some (osis_header ++ osis_footer)
      <-> fst (read_sword_index decompress data) = []).
Proof.
  intros Hconf Hdir.
  rewrite (convert_with_data decompress m name value sections files data
             Hconf Hdir).
  cbn [printed output]. split.
  - destruct (read_sword_index_cases decompress data)
      as [[Hnone Hlog] | [kind [idx_data [dat_data [_ Hread]]]]].
    + rewrite Hnone. split; [reflexivity|]. intros _.
      apply in_or_app. right. apply in_or_app. right.
      left. reflexivity.
    + rewrite Hread. cbn [fst snd].
      destruct (decoded_entries decompress idx_data dat_data) as [|e es].
      * split; [reflexivity|]. intros _. simpl. tauto.
      * split; [|discriminate]. simpl.
        intros H; repeat (destruct H as [H|H]; [discriminate H|]).
        destruct H.
  - split.
    + intros Hout. apply firstn_50_nil.
      remember (firstn 50 (fst (read_sword_index decompress data))) as L.
      assert (Hdoc : osis_header ++ map osis_line L ++ osis_footer
                     = osis_header ++ osis_footer) by congruence.
      apply app_inv_head in Hdoc.
      apply (f_equal (@length str)) in Hdoc.
      rewrite length_app, length_map in Hdoc.
      destruct L; [reflexivity | simpl length in Hdoc; lia].
    + intros ->. reflexivity.
Qed.

(** X9 on the sample module without index. *)
Lemma X9_placeholder_iff_no_element_witness :
  In NoEntriesPlaceholder
    (printed (convert_module_to_osis Zlib.decompress (sample_module no_index)))
  /\ output (convert_module_to_osis Zlib.decompress (sample_module no_index))
     = Some (osis_header ++ osis_footer).
Proof.
  destruct (X9_placeholder_iff_no_element Zlib.decompress
              (sample_module no_index) (lit "MHC")
              (Some (lit "./modules/x/")) [] [] no_index eq_refl eq_refl)
    as [Hlog Hout].
  split; [apply Hlog | apply Hout]; reflexivity.
Defined.

(** ** Escaped text *)

Lemma escape_char_no_markup (c : Z) :
  Forall (fun x => x <> 60 /\ x <> 62) (escape_char c).
Proof.
  unfold escape_char.
  destruct (Z.eqb_spec c 38); [repeat constructor; discriminate|].
  destruct (Z.eqb_spec c 60); [repeat constructor; discriminate|].
  destruct (Z.eqb_spec c 62); [repeat constructor; discriminate|].
  repeat constructor; assumption.
Qed.

Lemma escape_char_length (c : Z) : (1 <= length (escape_char c) <= 5)%nat.
Proof.
  unfold escape_char.
  destruct (c =? 38); [simpl; lia|].
  destruct (c =? 60); [simpl; lia|].
  destruct (c =? 62); simpl; lia.
Qed.

(** X10: whatever the text, its escaped form holds neither [<] nor [>],
    so the text of an entry cannot open or close an element of the
    document; the escaped form is at least as long as the text and at
    most five times as long. *)
Theorem X10_escaped_text_has_no_markup (text : str) :
  Forall (fun c => c <> 60 /\ c <> 62) (escape_text text)
  /\ len text <= len (escape_text text) <= 5 * len text.
Proof.
  rewrite escape_text_chars. split.
  - induction text as [|c text IH]; [constructor|].
    simpl flat_map. apply Forall_app. split; [apply escape_char_no_markup|].
    exact IH.
  - unfold len. induction text as [|c text IH]; [simpl; lia|].
    simpl flat_map. rewrite length_app.
    pose proof (escape_char_length c). simpl length. lia.
Qed.

(** X11: escaping works character by character: the escape of a
    concatenation is the concatenation of the escapes, two texts with the
    same escape are the same text, and a text without [&], [<] and [>] is
    written as it is. *)
Theorem X11_escape_compositional (a b : str) :
  escape_text (a ++ b) = escape_text a ++ escape_text b
  /\ (escape_text a = escape_text b -> a = b)
  /\ (Forall (fun c => c <> 38 /\ c <> 60 /\ c <> 62) a -> escape_text a = a).
Proof.
  rewrite !escape_text_chars. split; [apply flat_map_app|]. split.
  - intros Heq. rewrite <- (unescape_escape_chars a), Heq.
    apply unescape_escape_chars.
  - induction 1 as [|c text [H38 [H60 H62]] _ IH]; [reflexivity|].
    simpl flat_map. rewrite IH. unfold escape_char.
    destruct (Z.eqb_spec c 38); [contradiction|].
    destruct (Z.eqb_spec c 60); [contradiction|].
    destruct (Z.eqb_spec c 62); [contradiction|]. reflexivity.
Qed.

(** ** The batch *)

(** X12: the count of successes [main] reports is the number of modules
    whose configuration and data directory are found, whatever their
    indexes hold; it lies between 0 and the number of modules, every
    module gets its result in order, and the count of a batch made of two
    batches is the sum of their counts. *)
Theorem X12_main_counts (decompress : bytes -> option bytes)
    (batch1 batch2 : list module_dir) :
  fst (main decompress batch1) = len (filter module_found batch1)
  /\ 0 <= fst (main decompress batch1) <= len batch1
  /\ len (snd (main decompress batch1)) = len batch1
  /\ snd (main decompress (batch1 ++ batch2))
     = snd (main decompress batch1) ++ snd (main decompress batch2)
  /\ fst (main decompress (batch1 ++ batch2))
     = fst (main decompress batch1) + fst (main decompress batch2).
Proof.
  assert (Hcount : forall batch,
             fst (main decompress batch) = len (filter module_found batch)).
  { intros batch. unfold main, len. simpl fst. f_equal.
    induction batch as [|m batch IH]; [reflexivity|].
    simpl. rewrite returned_found.
    destruct (module_found m); simpl; rewrite IH; reflexivity. }
  split; [apply Hcount|]. split.
  { rewrite Hcount. unfold len.
    pose proof (filter_length_le module_found batch1). lia. }
  split; [unfold main, len; simpl snd; rewrite length_map; reflexivity|].
  split; [unfold main; simpl snd; apply map_app|].
  rewrite !Hcount, filter_app. unfold len. rewrite length_app. lia.
Qed.

(** ** The data path *)

Lemma lstrip_chars (chars pre s : str) :
  forallb (char_in chars) pre = true ->
  lstrip chars (pre ++ s) = lstrip chars s.
Proof.
  induction pre as [|c pre IH]; intros Hpre; [reflexivity|].
  simpl in Hpre. apply andb_true_iff in Hpre. destruct Hpre as [Hc Hpre].
  simpl. rewrite Hc. apply IH. exact Hpre.
Qed.

Lemma lstrip_all (chars s : str) :
  forallb (char_in chars) s = true -> lstrip chars s = [].
Proof.
  intros Hs. rewrite <- (app_nil_r s), lstrip_chars by assumption.
  reflexivity.
Qed.

(** What is left after [lstrip] is empty, or starts with a character that
    is kept and is a suffix of the text. *)
Lemma lstrip_cases (chars s : str) :
  (lstrip chars s = [] /\ forallb (char_in chars) s = true)
  \/ exists c w, lstrip chars s = c :: w /\ char_in chars c = false.
Proof.
  induction s as [|c s IH].
  - left. split; reflexivity.
  - simpl. destruct (char_in chars c) eqn:Hc.
    + destruct IH as [[Hnil Hall] | Hcons].
      * left. split; [exact Hnil | exact Hall].
      * right. exact Hcons.
    + right. exists c, s. split; [reflexivity | exact Hc].
Qed.

Lemma lstrip_head_kept (chars : str) (c : Z) (w : str) :
  char_in chars c = false -> lstrip chars (c :: w) = c :: w.
Proof. intros Hc. simpl. rewrite Hc. reflexivity. Qed.

Lemma forallb_rev {A : Type} (f : A -> bool) (l : list A) :
  forallb f (rev l) = forallb f l.
Proof.
  induction l as [|a l IH]; [reflexivity|].
  simpl. rewrite forallb_app, IH. simpl. rewrite andb_true_r.
  apply andb_comm.
Qed.

(** Characters of the set around a text do not change what [strip]
    returns. *)
Lemma strip_outer (chars pre s post : str) :
  forallb (char_in chars) pre = true ->
  forallb (char_in chars) post = true ->
  strip (pre ++ s ++ post) chars = strip s chars.
Proof.
  intros Hpre Hpost. unfold strip. rewrite lstrip_chars by assumption.
  destruct (lstrip_cases chars s) as [[Hnil Hall] | [c [w [Hcons Hc]]]].
  - rewrite Hnil. rewrite (lstrip_all chars (s ++ post)); [reflexivity|].
    rewrite forallb_app, Hall, Hpost. reflexivity.
  - assert (Hsplit : exists pre', s = pre' ++ c :: w
                                  /\ forallb (char_in chars) pre' = true).
    { clear Hpre Hpost. revert Hcons. induction s as [|x s IH]; [discriminate|].
      simpl. destruct (char_in chars x) eqn:Hx.
      - intros H. destruct (IH H) as [pre' [-> Hall]].
        exists (x :: pre'). split; [reflexivity|]. simpl. rewrite Hx. exact Hall.
      - intros [= -> ->]. exists []. split; reflexivity. }
    destruct Hsplit as [pre' [-> Hpre']].
    rewrite <- app_assoc, (lstrip_chars chars pre') by assumption.
    rewrite Hcons. change ((c :: w) ++ post) with (c :: w ++ post).
    rewrite lstrip_head_kept by assumption.
    change (c :: w ++ post) with ((c :: w) ++ post).
    rewrite rev_app_distr, lstrip_chars; [reflexivity|].
    rewrite forallb_rev. exact Hpost.
Qed.

Lemma lstrip_suffix (chars s : str) :
  exists dropped, s = dropped ++ lstrip chars s.
Proof.
  induction s as [|x s [dropped IH]]; [exists []; reflexivity|].
  simpl. destruct (char_in chars x).
  - exists (x :: dropped). simpl. rewrite <- IH. reflexivity.
  - exists []. reflexivity.
Qed.

(** [strip] leaves no character of the set at either end. *)
Lemma strip_ends (chars s : str) :
  (forall c, hd_error (strip s chars) = Some c -> char_in chars c = false)
  /\ (forall c, hd_error (rev (strip s chars)) = Some c ->
                char_in chars c = false).
Proof.
  unfold strip. rewrite rev_involutive. split.
  - intros x Hx.
    destruct (lstrip_suffix chars (rev (lstrip chars s))) as [dropped Hsuffix].
    apply (f_equal (@rev Z)) in Hsuffix.
    rewrite rev_involutive, rev_app_distr in Hsuffix.
    destruct (rev (lstrip chars (rev (lstrip chars s)))) as [|y ys];
      [discriminate Hx|].
    simpl in Hx. injection Hx as ->.
    destruct (lstrip_cases chars s) as [[Hnil _] | [c [w [Hcons Hc]]]].
    + rewrite Hnil in Hsuffix. discriminate Hsuffix.
    + rewrite Hcons in Hsuffix. simpl in Hsuffix.
      injection Hsuffix as -> _. exact Hc.
  - intros x Hx.
    destruct (lstrip_cases chars (rev (lstrip chars s)))
      as [[Hnil _] | [c [w [Hcons Hc]]]].
    + rewrite Hnil in Hx. discriminate Hx.
    + rewrite Hcons in Hx. simpl in Hx. injection Hx as <-. exact Hc.
Qed.

(** The conversion depends on the [DataPath] value through the stripped
    path only. *)
Lemma convert_same_data_path (decompress : bytes -> option bytes)
    (m : module_dir) (name : str) (v1 v2 : option str) :
  data_path_of v1 = data_path_of v2 ->
  convert_module_to_osis decompress (with_data_path m name v1)
  = convert_module_to_osis decompress (with_data_path m name v2).
Proof.
  intros Hpath. unfold convert_module_to_osis, with_data_path.
  cbn [conf_files subdir]. fold (data_path_of v1) (data_path_of v2).
  rewrite Hpath. reflexivity.
Qed.

(** X13: the data path is the [DataPath] value without the dots and
    slashes at its two ends: it neither starts nor ends with [.] or [/],
    any run of these characters put before or after the value gives the
    same conversion (so [./modules/x/], [modules/x] and [../modules/x]
    name the same directory), and a missing option is an empty value. *)
Theorem X13_data_path_stripped (decompress : bytes -> option bytes)
    (m : module_dir) (name value pre post : str) :
  forallb path_char pre = true ->
  forallb path_char post = true ->
  data_path_of (Some (pre ++ value ++ post)) = data_path_of (Some value)
  /\ convert_module_to_osis decompress
       (with_data_path m name (Some (pre ++ value ++ post)))
     = convert_module_to_osis decompress (with_data_path m name (Some value))
  /\ convert_module_to_osis decompress (with_data_path m name None)
     = convert_module_to_osis decompress (with_data_path m name (Some []))
  /\ (forall c, hd_error (data_path_of (Some value)) = Some c ->
                path_char c = false)
  /\ (forall c, hd_error (rev (data_path_of (Some value))) = Some c ->
                path_char c = false).
Proof.
  intros Hpre Hpost.
  assert (Hpath : data_path_of (Some (pre ++ value ++ post))
                  = data_path_of (Some value)).
  { unfold data_path_of. apply strip_outer; assumption. }
  split; [exact Hpath|].
  split; [apply convert_same_data_path; exact Hpath|].
  split; [apply convert_same_data_path; reflexivity|].
  unfold data_path_of, path_char. apply strip_ends.
Qed.

(** X13 on [../modules/x/] and [modules/x]. *)
Lemma X13_data_path_stripped_witness :
  forallb path_char (lit "../") = true
  /\ forallb path_char (lit "/") = true
  /\ data_path_of (Some (lit "../" ++ lit "modules/x" ++ lit "/"))
     = lit "modules/x".
Proof.
  split; [reflexivity|]. split; [reflexivity|].
  destruct (X13_data_path_stripped Zlib.decompress (sample_module no_index)
              (lit "MHC") (lit "modules/x") (lit "../") (lit "/")
              eq_refl eq_refl) as [Hpath _].
  transitivity (data_path_of (Some (lit "modules/x")));
    [exact Hpath | reflexivity].
Defined.

(** ** Payloads *)

(** X14: with zlib as the decompressor, a record whose offset is at or
    beyond the end of the data file, or whose compressed size is 0 or 1,
    gives no entry and no error: what is read is too short to hold the
    two header bytes of a zlib stream, the failure is passed over, and the
    loop goes on with the same entries. *)
Theorem X14_short_payload_skipped (idx_data dat_data : bytes)
    (i offset size comp_size : Z) (entries : dict str) :
  unpacked idx_data i = Some (offset, size, comp_size) ->
  len dat_data <= offset \/ 0 <= comp_size <= 1 ->
  (length (seek_read dat_data offset comp_size) < 2)%nat
  /\ read_slot Zlib.decompress idx_data dat_data i entries = Some entries
  /\ slot_entry Zlib.decompress idx_data dat_data i = [].
Proof.
  intros Hrec Hshort.
  assert (Hlen : (length (seek_read dat_data offset comp_size) < 2)%nat).
  { unfold seek_read, len in *. destruct Hshort as [Hpast | Hsmall].
    - rewrite skipn_all2 by lia.
      destruct (comp_size <? 0); [simpl; lia|].
      rewrite firstn_nil. simpl. lia.
    - destruct (Z.ltb_spec comp_size 0); [lia|].
      rewrite length_firstn. lia. }
  assert (Hfail : decompress_text Zlib.decompress
                    (seek_read dat_data offset comp_size) = None).
  { unfold decompress_text.
    rewrite decompress_needs_header by exact Hlen. reflexivity. }
  split; [exact Hlen|]. split.
  - apply (read_slot_failed Zlib.decompress idx_data dat_data i entries
             offset size comp_size Hrec Hfail).
  - unfold slot_entry. rewrite Hrec, Hfail.
    destruct ((offset =? 0) || (size =? 0)); reflexivity.
Qed.

(** X14 on a record that points beyond the end of the sample data
    file. *)
Lemma X14_short_payload_skipped_witness :
  unpacked (index_record 500 5 13) 0 = Some (500, 5, 13)
  /\ len sample_dat <= 500
  /\ read_slot Zlib.decompress (index_record 500 5 13) sample_dat 0 []
     = Some [].
Proof.
  assert (Hrec : unpacked (index_record 500 5 13) 0 = Some (500, 5, 13))
    by (vm_compute; reflexivity).
  assert (Hpast : len sample_dat <= 500) by (vm_compute; discriminate).
  split; [exact Hrec|]. split; [exact Hpast|].
  destruct (X14_short_payload_skipped (index_record 500 5 13) sample_dat
              0 500 5 13 [] Hrec (or_introl Hpast)) as [_ [Hslot _]].
  exact Hslot.
Defined.

(** X15: a payload that decompresses to ASCII bytes is stored as it is,
    byte for character, cut to its first 200 characters: decoding changes
    nothing in it. *)
Theorem X15_ascii_payload_stored (decompress : bytes -> option bytes)
    (idx_data dat_data raw : bytes) (i offset size comp_size : Z)
    (entries : dict str) :
  unpacked idx_data i = Some (offset, size, comp_size) ->
  0 < offset -> 0 < size ->
  decompress (seek_read dat_data offset comp_size) = Some raw ->
  Forall (fun b => byte_val b < 128) raw ->
  read_slot decompress idx_data dat_data i entries
  = Some (dict_set entries i (map byte_val (firstn 200 raw)))
  /\ slot_entry decompress idx_data dat_data i
     = [(i, map byte_val (firstn 200 raw))].
Proof.
  intros Hrec Ho Hs Hraw Hascii.
  assert (Htext : decompress_text decompress
                    (seek_read dat_data offset comp_size)
                  = Some (map byte_val raw)).
  { unfold decompress_text. rewrite Hraw. apply decode_ascii. exact Hascii. }
  assert (Hcut : slice_to (map byte_val raw) 200
                 = map byte_val (firstn 200 raw)).
  { rewrite slice_to_firstn by lia. change (Z.to_nat 200) with 200%nat.
    apply firstn_map. }
  split.
  - unfold read_slot. fold (unpacked idx_data i). rewrite Hrec.
    assert (Eo : (offset >? 0) = true) by (apply Z.gtb_lt; lia).
    assert (Es : (size >? 0) = true) by (apply Z.gtb_lt; lia).
    rewrite Eo, Es. simpl andb. cbv iota. rewrite Htext, Hcut. reflexivity.
  - unfold slot_entry. rewrite Hrec.
    destruct (Z.eqb_spec offset 0); [lia|].
    destruct (Z.eqb_spec size 0); [lia|].
    simpl orb. cbv iota. rewrite Htext, Hcut. reflexivity.
Qed.

(** X15 on the sample data: "Hello". *)
Lemma X15_ascii_payload_stored_witness :
  unpacked sample_idx 1 = Some (1, 5, 13)
  /\ Zlib.decompress (seek_read sample_dat 1 13) = Some (bytes_of [72; 101; 108; 108; 111])
  /\ read_slot Zlib.decompress sample_idx sample_dat 1 []
     = Some [(1, lit "Hello")].
Proof.
  assert (Hrec : unpacked sample_idx 1 = Some (1, 5, 13))
    by (vm_compute; reflexivity).
  assert (Hraw : Zlib.decompress (seek_read sample_dat 1 13)
                 = Some (bytes_of [72; 101; 108; 108; 111]))
    by (vm_compute; reflexivity).
  assert (Hascii : Forall (fun b => byte_val b < 128)
                     (bytes_of [72; 101; 108; 108; 111]))
    by (repeat constructor).
  split; [exact Hrec|]. split; [exact Hraw|].
  destruct (X15_ascii_payload_stored Zlib.decompress sample_idx sample_dat
              (bytes_of [72; 101; 108; 108; 111]) 1 1 5 13 []
              Hrec eq_refl eq_refl Hraw Hascii) as [Hslot _].
  rewrite Hslot. vm_compute. reflexivity.
Defined.

(** ** The reference in the attribute *)

Lemma markup_free_app (a b : str) :
  markup_free (a ++ b) = markup_free a && markup_free b.
Proof. apply forallb_app. Qed.

Lemma markup_free_digits (d : Decimal.uint) :
  markup_free (lit (NilEmpty.string_of_uint d)) = true.
Proof. induction d; simpl; auto. Qed.

Lemma markup_free_str_of_int (n : Z) : markup_free (str_of_int n) = true.
Proof.
  unfold str_of_int, NilZero.string_of_int, NilZero.string_of_uint.
  destruct (Z.to_int n) as [d|d].
  - destruct d; try reflexivity; apply markup_free_digits.
  - change (markup_free (45 :: lit match d with
                                   | Decimal.Nil => "0"%string
                                   | _ => NilEmpty.string_of_uint d
                                   end) = true).
    simpl markup_free.
    destruct d; try reflexivity; apply markup_free_digits.
Qed.

(** X16: whenever a slot number is given a reference, the [osisID] put in
    the attribute, [book.chapter.verse], holds no double quote, [&], [<]
    or [>]: the book is one of the 66 names of the table and the numbers
    are written in decimal, so the attribute is always well formed. *)
Theorem X16_reference_is_markup_free (i : Z) (book : str) (chapter verse : Z) :
  guess_verse i = Verse book chapter verse ->
  In book KJV_BOOKS
  /\ markup_free (book ++ lit "." ++ str_of_int chapter ++ lit "."
                    ++ str_of_int verse) = true.
Proof.
  unfold guess_verse.
  destruct (i / (50 * MAX_VERSES_PER_CHAPTER) <? len KJV_BOOKS);
    [|discriminate].
  destruct (getitem KJV_BOOKS (i / (50 * MAX_VERSES_PER_CHAPTER)))
    as [b|] eqn:Hbook; [|discriminate].
  intros Heq. injection Heq as -> _ _.
  assert (Hin : In book KJV_BOOKS).
  { unfold getitem in Hbook.
    destruct ((0 <=? i / (50 * MAX_VERSES_PER_CHAPTER))
              && (i / (50 * MAX_VERSES_PER_CHAPTER) <? len KJV_BOOKS)).
    - apply nth_error_In in Hbook. exact Hbook.
    - destruct ((- len KJV_BOOKS <=? i / (50 * MAX_VERSES_PER_CHAPTER))
                && (i / (50 * MAX_VERSES_PER_CHAPTER) <? 0));
        [|discriminate].
      apply nth_error_In in Hbook. exact Hbook. }
  split; [exact Hin|].
  assert (Hbooks : forallb markup_free KJV_BOOKS = true) by reflexivity.
  rewrite forallb_forall in Hbooks.
  rewrite !markup_free_app, (Hbooks book Hin), !markup_free_str_of_int.
  reflexivity.
Qed.

(** X16 at slot 12345. *)
Lemma X16_reference_is_markup_free_witness :
  guess_verse 12345 = Verse (lit "Exod") 12 146
  /\ markup_free (lit "Exod" ++ lit "." ++ str_of_int 12 ++ lit "."
                    ++ str_of_int 146) = true.
Proof.
  assert (Hguess : guess_verse 12345 = Verse (lit "Exod") 12 146)
    by (vm_compute; reflexivity).
  split; [exact Hguess|].
  exact (proj2 (X16_reference_is_markup_free 12345 (lit "Exod") 12 146 Hguess)).
Defined.
